(** * Medical_Data_Processor: a shallow embedding of DataCleaner.py and
    MedicalDataProcessor.py, and the properties of its text pipeline.

    Python [str] values are modelled as [string]: sequences of code points
    0..255 (the Latin-1 range), with Python's own classification of those
    code points for [\w], [\s], [str.strip] and [str.lower].  Python [int]
    is [Z].  A pandas DataFrame is a finite map from column names to columns
    of cells; statements that assign to [df[...]] thread the frame through
    explicitly, and a raised exception leaves the frame as it was mutated
    so far. *)

From Stdlib Require Import ZArith NArith Ascii String List Bool Lia DecimalString.
From stdpp Require Import base option gmap strings list fin_maps.

Local Open Scope string_scope.
Local Open Scope list_scope.

(* ===================================================================== *)
(** ** Python values, exceptions *)
(* ===================================================================== *)

Module Py.

(** The values a DataFrame cell or a method argument holds here: [None]/NaN,
    a [str], or an [int]. *)
Inductive value : Type :=
| VNone
| VStr (s : string)
| VInt (z : Z).

Inductive exn : Type :=
| KeyError (key : string)
| IndexError
| AttributeError
| ValueError (msg : string) (arg : list string).   (* f"{msg}{arg}" *)

(** A computation that returns or raises. *)
Inductive result (A : Type) : Type :=
| Ok (a : A)
| Raise (e : exn).
Arguments Ok {A} a.
Arguments Raise {A} e.

Definition bind {A B} (m : result A) (f : A -> result B) : result B :=
  match m with
  | Ok a => f a
  | Raise e => Raise e
  end.

Fixpoint mapM {A B} (f : A -> result B) (l : list A) : result (list B) :=
  match l with
  | [] => Ok []
  | a :: l' => bind (f a) (fun b => bind (mapM f l') (fun bs => Ok (b :: bs)))
  end.

(** [pd.isna] on a scalar cell. *)
Definition isna (v : value) : bool :=
  match v with VNone => true | _ => false end.

(** [isinstance(v, str)]. *)
Definition is_str (v : value) : bool :=
  match v with VStr _ => true | _ => false end.

(** [str(v)] for the non-null values. *)
Definition str (v : value) : string :=
  match v with
  | VNone => "None"
  | VStr s => s
  | VInt z => NilZero.string_of_int (Z.to_int z)
  end.

(* --------------------------------------------------------------------- *)
(** *** Characters *)

Definition ord (c : ascii) : N := N_of_ascii c.

Definition between (lo hi : N) (c : ascii) : bool :=
  ((lo <=? ord c) && (ord c <=? hi))%N.

(** [c.isalnum()] on code points 0..255. *)
Definition isalnum (c : ascii) : bool :=
  between 48 57 c || between 65 90 c || between 97 122 c
  || between 170 170 c || between 178 179 c || between 181 181 c
  || between 185 186 c || between 188 190 c
  || between 192 214 c || between 216 246 c || between 248 255 c.

(** The class [\w] of a str pattern: alphanumerics and the underscore. *)
Definition is_word (c : ascii) : bool :=
  isalnum c || between 95 95 c.

(** The class [\s], which is also what [str.strip()] removes. *)
Definition isspace (c : ascii) : bool :=
  between 9 13 c || between 28 32 c || between 133 133 c || between 160 160 c.

(** [c.lower()]. *)
Definition lower_char (c : ascii) : ascii :=
  if between 65 90 c || between 192 214 c || between 216 222 c
  then ascii_of_N (ord c + 32)
  else c.

(* --------------------------------------------------------------------- *)
(** *** str methods *)

Fixpoint lower (s : string) : string :=
  match s with
  | EmptyString => EmptyString
  | String c s' => String (lower_char c) (lower s')
  end.

(** [s.replace(old, new)] for a one-character [old]. *)
Fixpoint replace (old : ascii) (new : string) (s : string) : string :=
  match s with
  | EmptyString => EmptyString
  | String c s' =>
      if Ascii.eqb c old then new +:+ replace old new s'
      else String c (replace old new s')
  end.

Fixpoint lstrip (s : string) : string :=
  match s with
  | EmptyString => EmptyString
  | String c s' => if isspace c then lstrip s' else s
  end.

(** Removes the trailing characters that satisfy [p]. *)
Fixpoint rstrip_by (p : ascii -> bool) (s : string) : string :=
  match s with
  | EmptyString => EmptyString
  | String c s' =>
      match rstrip_by p s' with
      | EmptyString => if p c then EmptyString else String c EmptyString
      | r => String c r
      end
  end.

(** [s.strip()]. *)
Definition strip (s : string) : string := rstrip_by isspace (lstrip s).

(** [s.rstrip(chars)] for a one-character [chars]. *)
Definition rstrip (ch : ascii) (s : string) : string :=
  rstrip_by (Ascii.eqb ch) s.

(** [s.split(sep)] for a one-character [sep]: never the empty list. *)
Fixpoint split (sep : ascii) (s : string) : list string :=
  match s with
  | EmptyString => [EmptyString]
  | String c s' =>
      if Ascii.eqb c sep then EmptyString :: split sep s'
      else match split sep s' with
           | t :: ts => String c t :: ts
           | [] => [String c EmptyString]
           end
  end.

(** [sep.join(l)]. *)
Fixpoint join (sep : string) (l : list string) : string :=
  match l with
  | [] => EmptyString
  | [x] => x
  | x :: l' => x +:+ sep +:+ join sep l'
  end.

(** [x in l] for a list of strings. *)
Definition str_in (x : string) (l : list string) : bool :=
  existsb (String.eqb x) l.

(** The loop [for index, element in enumerate(l): if p(element): found =
    index; break]: the first index whose element satisfies [p]. *)
Fixpoint first_index (p : string -> bool) (l : list string) : option nat :=
  match l with
  | [] => None
  | x :: l' => if p x then Some 0 else S <$> first_index p l'
  end.

(** [l[i]], raising [IndexError] out of range. *)
Definition getitem {A} (l : list A) (i : nat) : result A :=
  match nth_error l i with
  | Some a => Ok a
  | None => Raise IndexError
  end.

(** A [dict] literal keeps insertion order: an association list. *)
Definition dict (V : Type) : Type := list (string * V).

Fixpoint dict_get {V} (d : dict V) (k : string) : option V :=
  match d with
  | [] => None
  | (k', v) :: d' => if String.eqb k k' then Some v else dict_get d' k
  end.

(** [d[k]], raising [KeyError] on a missing key. *)
Definition dict_item {V} (d : dict V) (k : string) : result V :=
  match dict_get d k with
  | Some v => Ok v
  | None => Raise (KeyError k)
  end.

End Py.

(* ===================================================================== *)
(** ** Calls on cells of any type *)
(* ===================================================================== *)

Module PyType.
Import Py.

(** What a call raises once its argument may have the wrong type: one of the
    exceptions above, or the [TypeError] of [re.search] on a subject that is
    not a [str]. *)
Inductive raised : Type :=
| Exn (e : exn)
| TypeError (got : value).

Inductive outcome (A : Type) : Type :=
| Returns (a : A)
| Raises (e : raised).
Arguments Returns {A} a.
Arguments Raises {A} e.

(** [s.apply(f)] for an [f] that may raise either kind: the cells are
    visited in order and the first exception ends the call. *)
Fixpoint apply {A B} (f : A -> outcome B) (l : list A) : outcome (list B) :=
  match l with
  | [] => Returns []
  | a :: l' =>
      match f a with
      | Returns b =>
          match apply f l' with
          | Returns bs => Returns (b :: bs)
          | Raises e => Raises e
          end
      | Raises e => Raises e
      end
  end.

End PyType.

(* ===================================================================== *)
(** ** The fragment of Python's [re] the two classes use *)
(* ===================================================================== *)

Module Re.
Import Py.

(** Members of a bracketed class. *)
Inductive item : Type :=
| IChar (c : ascii)
| IWord                      (* \w *)
| ISpace.                    (* \s *)

(** A character set [[...]] or [[^...]]; [\s] alone is [CSet false [ISpace]]. *)
Inductive cset : Type :=
| CSet (negated : bool) (items : list item).

Inductive regex : Type :=
| Empty
| Lit (c : ascii)
| Set_ (cs : cset)
| Boundary                   (* \b *)
| Seq (r1 r2 : regex)
| Alt (r1 r2 : regex)
| Star (cs : cset)           (* greedy cs* *)
| Plus (cs : cset)           (* greedy cs+ *)
| Group (n : nat) (r : regex).

(** Literal comparison; with [re.IGNORECASE] ([ic]) both sides are
    case-folded. *)
Definition chr_eq (ic : bool) (c d : ascii) : bool :=
  if ic then Ascii.eqb (lower_char c) (lower_char d) else Ascii.eqb c d.

Definition item_matches (ic : bool) (i : item) (d : ascii) : bool :=
  match i with
  | IChar c => chr_eq ic c d
  | IWord => is_word d
  | ISpace => isspace d
  end.

Definition cset_matches (ic : bool) (cs : cset) (d : ascii) : bool :=
  match cs with
  | CSet negated items => xorb negated (existsb (fun i => item_matches ic i d) items)
  end.

(** [re.escape(term)] read back as a pattern: the characters of [term],
    each matched literally. *)
Fixpoint escape (term : string) : regex :=
  match term with
  | EmptyString => Empty
  | String c t => Seq (Lit c) (escape t)
  end.

(** Captured groups of a match object, most recent first. *)
Definition captures : Type := list (nat * string).

(** A matcher position: the character before it (for [\b]) and the rest of
    the subject. *)
Definition cont : Type := option ascii -> string -> captures -> option captures.

Definition word_before (prev : option ascii) : bool :=
  match prev with Some c => is_word c | None => false end.

Definition word_after (s : string) : bool :=
  match s with String c _ => is_word c | EmptyString => false end.

(** The part of [s] consumed when the rest is [s']. *)
Definition consumed (s s' : string) : string :=
  substring 0 (String.length s - String.length s') s.

(** Greedy repetition of one character set, giving characters back one at a
    time when the continuation fails. *)
Fixpoint star_loop (p : ascii -> bool) (k : cont)
    (prev : option ascii) (s : string) (cs : captures) : option captures :=
  match s with
  | String c s' =>
      if p c then
        match star_loop p k (Some c) s' cs with
        | Some m => Some m
        | None => k prev s cs
        end
      else k prev s cs
  | EmptyString => k prev s cs
  end.

(** Backtracking match of [r] at one position, then [k]. *)
Fixpoint rmatch (ic : bool) (r : regex) (k : cont)
    (prev : option ascii) (s : string) (cs : captures) : option captures :=
  match r with
  | Empty => k prev s cs
  | Lit c =>
      match s with
      | String d s' => if chr_eq ic c d then k (Some d) s' cs else None
      | EmptyString => None
      end
  | Set_ st =>
      match s with
      | String d s' => if cset_matches ic st d then k (Some d) s' cs else None
      | EmptyString => None
      end
  | Boundary =>
      if xorb (word_before prev) (word_after s) then k prev s cs else None
  | Seq r1 r2 => rmatch ic r1 (rmatch ic r2 k) prev s cs
  | Alt r1 r2 =>
      match rmatch ic r1 k prev s cs with
      | Some m => Some m
      | None => rmatch ic r2 k prev s cs
      end
  | Star st => star_loop (cset_matches ic st) k prev s cs
  | Plus st =>
      match s with
      | String d s' =>
          if cset_matches ic st d
          then star_loop (cset_matches ic st) k (Some d) s' cs
          else None
      | EmptyString => None
      end
  | Group n r1 =>
      rmatch ic r1 (fun prev' s' cs' => k prev' s' ((n, consumed s s') :: cs'))
        prev s cs
  end.

Definition accept : cont := fun _ _ cs => Some cs.

(** Leftmost match: try every start position, left to right. *)
Fixpoint search_from (ic : bool) (r : regex)
    (prev : option ascii) (s : string) : option captures :=
  match rmatch ic r accept prev s [] with
  | Some m => Some m
  | None =>
      match s with
      | String c s' => search_from ic r (Some c) s'
      | EmptyString => None
      end
  end.

(** [re.search(r, s, flags)]: the match object, or [None]. *)
Definition search (ic : bool) (r : regex) (s : string) : option captures :=
  search_from ic r None s.

(** [m.group(n)]. *)
Fixpoint group (m : captures) (n : nat) : option string :=
  match m with
  | [] => None
  | (n', g) :: m' => if Nat.eqb n n' then Some g else group m' n
  end.

(** [re.sub(pattern, repl, s)] for a pattern that is one character set:
    every character in the set is replaced by [repl]. *)
Fixpoint sub_set (st : cset) (repl : string) (s : string) : string :=
  match s with
  | EmptyString => EmptyString
  | String c s' =>
      if cset_matches false st c then repl +:+ sub_set st repl s'
      else String c (sub_set st repl s')
  end.

End Re.

(* ===================================================================== *)
(** ** The fragment of pandas the two classes use *)
(* ===================================================================== *)

Module Pd.
Import Py.

Definition Series : Type := list value.

(** A frame: column label to column.  Rows are positions in the columns. *)
Abbreviation DataFrame := (gmap string (list value)).

(** Code that reads and assigns columns of one frame object and may raise:
    the frame is threaded through, and survives a raise as mutated so far. *)
Definition M (A : Type) : Type := DataFrame -> DataFrame * result A.

Definition ret {A} (a : A) : M A := fun df => (df, Ok a).

Definition mbind {A B} (m : M A) (f : A -> M B) : M B :=
  fun df =>
    match m df with
    | (df', Ok a) => f a df'
    | (df', Raise e) => (df', Raise e)
    end.

Definition lift {A} (r : result A) : M A := fun df => (df, r).

(** [df[column]]. *)
Definition getcol (column : string) : M Series :=
  fun df =>
    match df !! column with
    | Some s => (df, Ok s)
    | None => (df, Raise (KeyError column))
    end.

(** [df[column] = s]. *)
Definition setcol (column : string) (s : Series) : M unit :=
  fun df => (<[column := s]> df, Ok tt).

(** [s.apply(f)]. *)
Definition apply (f : value -> result value) (s : Series) : result Series :=
  mapM f s.

(** [s.map(d)] with a dict: a cell that is not a key becomes NaN. *)
Definition map_dict {V} (inj : V -> value) (d : dict V) (s : Series) : Series :=
  List.map
    (fun v =>
       match v with
       | VStr k => match dict_get d k with Some x => inj x | None => VNone end
       | _ => VNone
       end) s.

(** [s.fillna(other)] with a Series on the same index. *)
Fixpoint fillna (s other : Series) : Series :=
  match s, other with
  | v :: s', o :: other' => (if isna v then o else v) :: fillna s' other'
  | _, _ => s
  end.

(** [col in df.columns]. *)
Definition has_column (df : DataFrame) (col : string) : bool :=
  bool_decide (is_Some (df !! col)).

End Pd.

Declare Scope frame_scope.
Delimit Scope frame_scope with frame.
Notation "'let!' x ':=' m 'in' k" := (Pd.mbind m (fun x => k))
  (at level 10, x name, m at level 100, k at level 200, only parsing) : frame_scope.
Notation "'do!' m 'in' k" := (Pd.mbind m (fun _ => k))
  (at level 10, m at level 100, k at level 200, only parsing) : frame_scope.

(* ===================================================================== *)
(** ** DataCleaner.py *)
(* ===================================================================== *)

Module DataCleaner.
Import Py.

Record t : Type := {
  keywords : list string;
  ct_types : list string
}.

(** [__init__]. *)
Definition init : t := {|
  keywords := ["w"; "wo"; "with"; "without"; "wo/w"];
  ct_types := ["angiography"; "arthrography"; "enterography"; "fistulogram";
               "urography"; "venography"; "quantitative"; "scan"]
|}.

Definition newline : ascii := "010"%char.

(** The pattern [(Recommendation|Exam):\s*([^.\n]+)]. *)
Definition label_pattern : Re.regex :=
  Re.Seq (Re.Group 1 (Re.Alt (Re.escape "Recommendation") (Re.escape "Exam")))
    (Re.Seq (Re.Lit ":")
       (Re.Seq (Re.Star (Re.CSet false [Re.ISpace]))
          (Re.Group 2 (Re.Plus (Re.CSet true [Re.IChar "."; Re.IChar newline]))))).

Definition clean_recommendation (text : string) : result string :=
  match Re.search true label_pattern text with
  | Some m =>
      match Re.group m 2 with
      | Some g => Ok (strip g)
      | None => Raise AttributeError
      end
  | None => Ok (rstrip "." (strip (replace newline " " text)))
  end.

(** The tokens: the first two statements of the [try] block. *)
Definition elements_of (row : string) : list string :=
  let elements := split " " row in
  List.map (fun s => replace "," "" (strip s)) elements.

(** The [try] block of [format_referral]. *)
Definition format_referral_try (self : t) (row : string)
  : result (option string * option string * option string) :=
  let elements := elements_of row in
  let ct_index := first_index (fun element => str_in element (ct_types self)) elements in
  bind (match ct_index with
        | Some ct_index => Ok (join " " (take (ct_index + 1) elements), ct_index)
        | None => bind (getitem elements 0) (fun exam => Ok (exam, 0))
        end)
    (fun '(exam, ct_index) =>
       let other_elements := drop (ct_index + 1) elements in
       let keyword_index :=
         first_index (fun element => str_in element (keywords self)) other_elements in
       match keyword_index with
       | Some keyword_index =>
           Ok (Some exam,
               Some (join " " (take keyword_index other_elements)),
               Some (join " " (drop keyword_index other_elements)))
       | None => Ok (Some exam, Some (join " " other_elements), None)
       end).

Definition format_referral (self : t) (row : value)
  : option string * option string * option string :=
  match row with
  | VStr row =>
      match format_referral_try self row with
      | Ok r => r
      | Raise _ => (None, None, None)
      end
  | _ => (None, None, None)
  end.

(** [check_columns]: reads the column labels only. *)
Definition check_columns (df : Pd.DataFrame) (required_columns : list string)
  : result bool :=
  let missing_columns :=
    List.filter (fun col => negb (Pd.has_column df col)) required_columns in
  match missing_columns with
  | [] => Ok true
  | _ => Raise (ValueError "Missing columns: " missing_columns)
  end.

(** [self.clean_recommendation] on a cell: [re.search] wants a [str]. *)
Definition clean_recommendation_cell (text : value) : PyType.outcome value :=
  match text with
  | VStr s =>
      match clean_recommendation s with
      | Ok r => PyType.Returns (VStr r)
      | Raise e => PyType.Raises (PyType.Exn e)
      end
  | _ => PyType.Raises (PyType.TypeError text)
  end.

(** [apply_cleaning_to_dataframe]: reads one column, returns a new Series
    and leaves the frame alone. *)
Definition apply_cleaning_to_dataframe (df : Pd.DataFrame) (column_name : string)
  : PyType.outcome Pd.Series :=
  match df !! column_name with
  | Some column => PyType.apply clean_recommendation_cell column
  | None => PyType.Raises (PyType.Exn (KeyError column_name))
  end.

End DataCleaner.

(* ===================================================================== *)
(** ** MedicalDataProcessor.py *)
(* ===================================================================== *)

Module MedicalDataProcessor.
Import Py.

Record t : Type := {
  keywords : list string;
  ct_types : list string;
  exam_categories : dict (list string);
  organ_clusters : dict (list string);
  contrast_standardization_map : dict string
}.

(** [__init__]. *)
Definition init : t := {|
  keywords := ["w"; "wo"; "with"; "without"; "wo/w"];
  ct_types := ["angiography"; "arthrography"; "enterography"; "fistulogram";
               "urography"; "venography"; "quantitative"; "scan"];
  exam_categories := [
    ("CT Scans",
     ["ct"; "ct angiography"; "ct enterography"; "ct high resolution"; "ct colonography";
      "ct venography"; "ct maxillofacial"; "ct pancreatitis protocol"; "ct retroperitoneal";
      "ct angiography retroperitoneum"; "ct retroperitoneal space"; "ct retroperitineal space";
      "ct pancreas protoco"; "ct enteroclysis"; "ct angiography perfusion";
      "ct angiography aortography"; "ct arteriography"; "ct artrography";
      "computed tomography ct scan"; "high resolution ct scan"; "ct, x-ray";
      "ct, ct urography"; "ct, xray"]);
    ("MRI",
     ["mri"; "mri enterography"; "mri angiography"; "mri brain and mr angiography";
      "cardiac mri"; "pelvic mri"; "mrcp"; "mrv"]);
    ("Ultrasound and Doppler Studies",
     ["ultrasound"; "doppler ultrasound"; "carotid duplex ultrasound"; "pelvic ultrasound";
      "arterial/venous duplex ultrasound"; "duplex ultrasound"]);
    ("Radiography and X-Ray",
     ["xray"; "mammogram"; "mammography"; "radiography"; "dental ct scan";
      "barium swallow study"; "x-ray"]);
    ("Nuclear Medicine",
     ["petct"; "nuclear bone scan"; "bone scan"; "whole body bone scan"; "pet scan";
      "dexa scan"]);
    ("Invasive and Interventional Procedures",
     ["cervical nerve root block"; "lumbar nerve root block"; "pudendal nerve root block";
      "catheter"; "biopsy"; "colonoscopy"; "retrograde pyelogram"; "esophagography";
      "cystoscopy"; "cystography"; "esophagogastroduodenoscopy"; "epidural steroid injection"]);
    ("Cardiovascular Specific Exams",
     ["echocardiogram"; "stress test"; "coronary angiography"; "stress echocardiogram"]);
    ("Health Check-ups and Other Exams",
     ["general health check-up"; "general physical exam"; "complete blood count";
      "general check-up"; "physical examination"; "comprehensive metabolic panel";
      "complete body scan"; "check-up"; "general check up"])
  ];
  organ_clusters := [
    ("head",
     ["head"; "cranial"; "skull"; "brain"; "cerebral"; "facial"; "sinus"; "paranasal sinuses";
      "temporal bone"; "face"; "orbit"; "temporomandibular joints"; "maxilla"; "sinuses";
      "mandible"; "pituitary gland"; "maxillofacial area"; "maxillofacial"; "nasopharynx";
      "salivary glands"; "maxillofacial region"; "mouth area"; "tongue"; "scalp"; "pituitary";
      "eye"; "intracranial"; "ear"; "temporomandibular joint"]);
    ("neck",
     ["neck"; "cervical"; "throat"; "nuchal"; "larynx"; "esophagus"; "carotid arteries";
      "carotid"; "parotid gland"; "thyroid"]);
    ("thorax",
     ["thorax"; "chest"; "thoracic"; "pulmonary"; "heart"; "cardiac"; "breast"; "mediastinum";
      "aorta"; "aortic"; "coronary"; "coronaries"; "aorta branches"; "sternoclavicular joint";
      "breasts"; "trachea"; "lung"; "lungs"; "clavicula"; "scapula bone";
      "joint sternoclavicular"; "subclavian artery"; "coronary arteries"]);
    ("abdomen_pelvis",
     ["abdomen"; "abdominal"; "stomach"; "intestinal"; "gastrointestinal"; "liver"; "pancreas";
      "spleen"; "small bowel"; "colon"; "colonography colon"; "gallbladder"; "kidney";
      "kidneys"; "urinary organs"; "biliary tract"; "biliary system"; "renal"; "adrenal";
      "adrenal gland"; "adrenal glands"; "pelvis"; "pelvic"; "hip"; "inguinal"; "pubic";
      "iliac vein"; "urinary bladder"; "urinary tract"; "prostate"; "uterus";
      "uterus and ovaries"]);
    ("upper_extremities",
     ["upper"; "arm"; "shoulder"; "elbow"; "wrist"; "hand"; "scapula"; "clavicle"; "humerus";
      "right humerus"; "ulna left"; "forearm"; "left forearm"; "finger"; "brachial plexus";
      "right thumb"]);
    ("lower_extremities",
     ["lower"; "leg"; "knee"; "knees"; "foot"; "thigh"; "tibia"; "femur"; "calcaneus";
      "popliteal artery"; "knees bilateral"; "right malleolus"; "femoral nerve left";
      "lower extremities"; "iliofemoral arteries"; "ankle"]);
    ("spine",
     ["spine"; "vertebral"; "lumbar"; "sacral"; "spinal canal"; "spinal cord"; "spinal";
      "thoracic spine"]);
    ("skeletal",
     ["joint"; "bone"; "bones"; "skeletal"; "skeleton"; "extremities"; "musculoskeletal";
      "musculoskeletal system"]);
    ("lymphatic",
     ["lymph nodes"; "lymphatic system"]);
    ("body",
     ["whole body"; "body"; "full body"; "various organs"; "multiple organs"; "extremities";
      "multiple organ systems"; "muscular system"; "skin"; "limbs"; "blood"; "peripheral";
      "endocrine system"; "muscles"; "vascular region"; "vascular system"; "arterial system"])
  ];
  contrast_standardization_map := [
    ("with iv contrast ", "with iv contrast");
    ("without iv contrast ", "without iv contrast");
    (" with iv contrast", "with iv contrast");
    (" with or without iv contrast", "with or without iv contrast");
    (" without iv contrast", "without iv contrast");
    ("with or without iv contrast ", "with or without iv contrast")
  ]
|}.

Definition newline : ascii := "010"%char.

(** The pattern [(Recommendation|Exam):\s*([^.\n]+)]. *)
Definition label_pattern : Re.regex :=
  Re.Seq (Re.Group 1 (Re.Alt (Re.escape "Recommendation") (Re.escape "Exam")))
    (Re.Seq (Re.Lit ":")
       (Re.Seq (Re.Star (Re.CSet false [Re.ISpace]))
          (Re.Group 2 (Re.Plus (Re.CSet true [Re.IChar "."; Re.IChar newline]))))).

Definition clean_recommendation (text : string) : result string :=
  match Re.search true label_pattern text with
  | Some m =>
      match Re.group m 2 with
      | Some g => Ok (strip g)
      | None => Raise AttributeError
      end
  | None => Ok (rstrip "." (strip (replace newline " " text)))
  end.

(** The tokens: the first two statements of the [try] block. *)
Definition elements_of (row : string) : list string :=
  let elements := split " " row in
  List.map (fun s => replace "," "" (strip s)) elements.

(** The [try] block of [format_referral]. *)
Definition format_referral_try (self : t) (row : string)
  : result (option string * option string * option string) :=
  let elements := elements_of row in
  let ct_index := first_index (fun element => str_in element (ct_types self)) elements in
  bind (match ct_index with
        | Some ct_index => Ok (join " " (take (ct_index + 1) elements), ct_index)
        | None => bind (getitem elements 0) (fun exam => Ok (exam, 0))
        end)
    (fun '(exam, ct_index) =>
       let other_elements := drop (ct_index + 1) elements in
       let keyword_index :=
         first_index (fun element => str_in element (keywords self)) other_elements in
       match keyword_index with
       | Some keyword_index =>
           Ok (Some exam,
               Some (join " " (take keyword_index other_elements)),
               Some (join " " (drop keyword_index other_elements)))
       | None => Ok (Some exam, Some (join " " other_elements), None)
       end).

Definition format_referral (self : t) (row : value)
  : option string * option string * option string :=
  match row with
  | VStr row =>
      match format_referral_try self row with
      | Ok r => r
      | Raise _ => (None, None, None)
      end
  | _ => (None, None, None)
  end.

(** The pattern [r"\b" + re.escape(term) + r"\b"]. *)
Definition word_pattern (term : string) : Re.regex :=
  Re.Seq Re.Boundary (Re.Seq (Re.escape term) Re.Boundary).

(** [any(re.search(r"\b" + re.escape(term) + r"\b", cleaned) for term in terms)]. *)
Definition any_term (terms : list string) (cleaned : string) : bool :=
  existsb (fun term => bool_decide (is_Some (Re.search false (word_pattern term) cleaned)))
    terms.

(** The two substitutions both encoders start with:
    [re.sub(r"-", " ", str(x))], then [re.sub(r"[^\w\s]", "", _.lower())]. *)
Definition clean_text (x : value) : string :=
  let cleaned := Re.sub_set (Re.CSet false [Re.IChar "-"]) " " (str x) in
  Re.sub_set (Re.CSet true [Re.IWord; Re.ISpace]) "" (lower cleaned).

Definition cluster_tokens : dict Z := [
  ("head", Z.shiftl 1 0); ("neck", Z.shiftl 1 1); ("thorax", Z.shiftl 1 2);
  ("abdomen_pelvis", Z.shiftl 1 3);
  ("upper_extremities", Z.shiftl 1 4); ("lower_extremities", Z.shiftl 1 5);
  ("spine", Z.shiftl 1 6);
  ("skeletal", Z.shiftl 1 7); ("lymphatic", Z.shiftl 1 8); ("body", Z.shiftl 1 9)
].

(** [for cluster, terms in self.organ_clusters.items(): ...]. *)
Fixpoint organ_loop (cleaned_phrase : string) (items : dict (list string))
    (binary_flag : Z) : result Z :=
  match items with
  | [] => Ok binary_flag
  | (cluster, terms) :: items' =>
      if any_term terms cleaned_phrase
      then bind (dict_item cluster_tokens cluster)
             (fun token => organ_loop cleaned_phrase items' (Z.lor binary_flag token))
      else organ_loop cleaned_phrase items' binary_flag
  end.

Definition tokenize_and_flag_organs (self : t) (phrase : value) : result value :=
  if isna phrase then Ok VNone
  else
    let cleaned_phrase := clean_text phrase in
    bind (organ_loop cleaned_phrase (organ_clusters self) 0)
      (fun binary_flag => Ok (VInt binary_flag)).

Definition categories_to_flags : dict Z := [
  ("CT Scans", Z.shiftl 1 0);
  ("MRI", Z.shiftl 1 1);
  ("Ultrasound and Doppler Studies", Z.shiftl 1 2);
  ("Radiography and X-Ray", Z.shiftl 1 3);
  ("Nuclear Medicine", Z.shiftl 1 4);
  ("Invasive and Interventional Procedures", Z.shiftl 1 5);
  ("Cardiovascular Specific Exams", Z.shiftl 1 6);
  ("Health Check-ups and Other Exams", Z.shiftl 1 7)
].

(** [for category, flag in categories_to_flags.items(): ...]. *)
Fixpoint exam_loop (self : t) (cleaned_exam : string) (items : dict Z)
    (binary_flag : Z) : result Z :=
  match items with
  | [] => Ok binary_flag
  | (category, flag) :: items' =>
      bind (dict_item (exam_categories self) category)
        (fun terms =>
           if any_term terms cleaned_exam
           then exam_loop self cleaned_exam items' (Z.lor binary_flag flag)
           else exam_loop self cleaned_exam items' binary_flag)
  end.

Definition map_exam_to_binary_flag (self : t) (exam_name : value) : result value :=
  if isna exam_name then Ok VNone
  else
    let cleaned_exam := clean_text exam_name in
    bind (exam_loop self cleaned_exam categories_to_flags 0)
      (fun binary_flag => Ok (VInt binary_flag)).

(** [column.map(self.contrast_standardization_map).fillna(column)]. *)
Definition standardize_contrast (self : t) (column : Pd.Series) : Pd.Series :=
  Pd.fillna (Pd.map_dict VStr (contrast_standardization_map self) column) column.

(** The dict literal of [encode_binary_flags_contrast]. *)
Definition contrast_flags : dict Z := [
  ("with iv contrast", 1%Z);
  ("without iv contrast", 0%Z);
  ("with or without iv contrast", 2%Z)
].

Local Open Scope frame_scope.

Definition encode_binary_flags_contrast (column : string) : Pd.M unit :=
  let! col := Pd.getcol column in
  Pd.setcol (column +:+ "_flags") (Pd.map_dict VInt contrast_flags col).

Definition process_data (self : t) (exam_column organ_column contrast_column : string)
  : Pd.M unit :=
  let! exam := Pd.getcol exam_column in
  let! exam_flags := Pd.lift (Pd.apply (map_exam_to_binary_flag self) exam) in
  do! Pd.setcol (exam_column +:+ "_flags") exam_flags in
  let! organ := Pd.getcol organ_column in
  let! organ_flags := Pd.lift (Pd.apply (tokenize_and_flag_organs self) organ) in
  do! Pd.setcol (organ_column +:+ "_flags") organ_flags in
  let! contrast := Pd.getcol contrast_column in
  do! Pd.setcol contrast_column (standardize_contrast self contrast) in
  encode_binary_flags_contrast contrast_column.

(** [self.clean_recommendation] on a cell: [re.search] wants a [str]. *)
Definition clean_recommendation_cell (text : value) : PyType.outcome value :=
  match text with
  | VStr s =>
      match clean_recommendation s with
      | Ok r => PyType.Returns (VStr r)
      | Raise e => PyType.Raises (PyType.Exn e)
      end
  | _ => PyType.Raises (PyType.TypeError text)
  end.

(** [apply_cleaning_to_dataframe]: reads one column, returns a new Series
    and leaves the frame alone. *)
Definition apply_cleaning_to_dataframe (df : Pd.DataFrame) (column_name : string)
  : PyType.outcome Pd.Series :=
  match df !! column_name with
  | Some column => PyType.apply clean_recommendation_cell column
  | None => PyType.Raises (PyType.Exn (KeyError column_name))
  end.

End MedicalDataProcessor.

(* ===================================================================== *)
(** ** Notions the specification is phrased in *)
(* ===================================================================== *)

Module Spec.
Import Py.

Fixpoint all_chars (p : ascii -> bool) (s : string) : bool :=
  match s with
  | EmptyString => true
  | String c s' => p c && all_chars p s'
  end.

Fixpoint any_char (p : ascii -> bool) (s : string) : bool :=
  match s with
  | EmptyString => false
  | String c s' => p c || any_char p s'
  end.

Fixpoint last_char (s : string) : option ascii :=
  match s with
  | EmptyString => None
  | String c EmptyString => Some c
  | String _ s' => last_char s'
  end.

Definition first_char (s : string) : option ascii :=
  match s with
  | EmptyString => None
  | String c _ => Some c
  end.

(** [term] occurs in [s] as a whole word: an occurrence with no word
    character ([\w]) directly before or after it. *)
Definition whole_word (term s : string) : Prop :=
  exists pre suf : string,
    s = pre +:+ term +:+ suf
    /\ Re.word_before (last_char pre) = false
    /\ Re.word_after suf = false.

(** A term that starts and ends with a word character. *)
Definition word_edged (term : string) : bool :=
  Re.word_before (first_char term) && Re.word_before (last_char term).

(** A character that is neither a word character nor whitespace. *)
Definition is_punct (c : ascii) : bool := negb (is_word c) && negb (isspace c).

(** The cleaning as the specification words it: hyphens replaced by spaces,
    everything that is not alphanumeric or whitespace stripped, lower-cased. *)
Fixpoint keep_chars (p : ascii -> bool) (s : string) : string :=
  match s with
  | EmptyString => EmptyString
  | String c s' => if p c then String c (keep_chars p s') else keep_chars p s'
  end.

Definition spec_clean (s : string) : string :=
  lower (keep_chars (fun c => isalnum c || isspace c) (replace "-" " " s)).

(** A recognizable label at the start of [s]: "Recommendation" or "Exam" in
    any letter case, a colon, optional whitespace, and then at least one
    character that is neither a period nor a newline. *)
Definition label_at (s : string) : Prop :=
  exists (lab ws : string) (ch : ascii) (rest : string),
    s = lab +:+ ":" +:+ ws +:+ String ch rest
    /\ (lower lab = "recommendation" \/ lower lab = "exam")
    /\ all_chars isspace ws = true
    /\ ch <> "."%char /\ ch <> "010"%char.

(** A recognizable label somewhere in [text]. *)
Definition has_label (text : string) : Prop :=
  exists pre s : string, text = pre +:+ s /\ label_at s.

(** Removing one trailing period, if there is one. *)
Fixpoint drop_one_period (s : string) : string :=
  match s with
  | EmptyString => EmptyString
  | String c EmptyString => if Ascii.eqb c "." then EmptyString else s
  | String c s' => String c (drop_one_period s')
  end.

(** The contrast codes as the specification lists them. *)
Definition spec_encode_contrast (phrase : value) : value :=
  match phrase with
  | VStr s =>
      if String.eqb s "with iv contrast" then VInt 0
      else if String.eqb s "without iv contrast" then VInt 1
      else if String.eqb s "with or without iv contrast" then VInt 2
      else VNone
  | _ => VNone
  end.

(** The contrast codes of the dict literal in [encode_binary_flags_contrast]. *)
Definition contrast_code (phrase : value) : value :=
  match phrase with
  | VStr s =>
      if String.eqb s "with iv contrast" then VInt 1
      else if String.eqb s "without iv contrast" then VInt 0
      else if String.eqb s "with or without iv contrast" then VInt 2
      else VNone
  | _ => VNone
  end.

(** The first contrast keyword splits the tokens after the exam into body
    part and contrast. *)
Inductive keyword_split (keywords : list string)
  : list string -> option string -> option string -> Prop :=
| split_none rest :
    Forall (fun e => str_in e keywords = false) rest ->
    keyword_split keywords rest (Some (join " " rest)) None
| split_at pre kw post :
    Forall (fun e => str_in e keywords = false) pre ->
    str_in kw keywords = true ->
    keyword_split keywords (pre ++ kw :: post)
      (Some (join " " pre)) (Some (join " " (kw :: post))).

(** The character before the position reached after reading [t] from a
    position whose previous character is [prev]. *)
Definition prev_after (prev : option ascii) (t : string) : option ascii :=
  match last_char t with
  | Some c => Some c
  | None => prev
  end.

(** [lab] is what the literal [t] can match: character by character equal,
    up to letter case under [re.IGNORECASE]. *)
Fixpoint lit_match (ic : bool) (t lab : string) : bool :=
  match t, lab with
  | EmptyString, EmptyString => true
  | String c t', String d lab' => Re.chr_eq ic c d && lit_match ic t' lab'
  | _, _ => false
  end.

(** The bitmask a list of (trigger terms, flag) pairs produces for a hit
    test on term lists: the flags are or-ed, in list order. *)
Definition or_flags (hit : list string -> bool) (rows : list (list string * Z))
    (flag : Z) : Z :=
  fold_left (fun acc row => if hit (fst row) then Z.lor acc (snd row) else acc)
    rows flag.

(** The rows of the organ table, with the flag of each cluster. *)
Definition organ_rows (table : dict (list string)) : list (list string * Z) :=
  List.map (fun entry =>
              (snd entry,
               default 0%Z (dict_get MedicalDataProcessor.cluster_tokens (fst entry))))
    table.

(** The rows of the exam table, in the order of the flag dict. *)
Definition exam_rows (table : dict (list string)) : list (list string * Z) :=
  List.map (fun entry => (default [] (dict_get table (fst entry)), snd entry))
    MedicalDataProcessor.categories_to_flags.

(** The two character sets of the label pattern, and the part of the
    pattern after the label: [:\s*([^.\n]+)]. *)
Definition space_set : Re.cset := Re.CSet false [Re.ISpace].
Definition stop_set : Re.cset :=
  Re.CSet true [Re.IChar "."; Re.IChar MedicalDataProcessor.newline].
Definition label_tail : Re.regex :=
  Re.Seq (Re.Lit ":") (Re.Seq (Re.Star space_set) (Re.Group 2 (Re.Plus stop_set))).

(** What [standardize_contrast] does to one cell: a key of the
    standardization map becomes its canonical phrase, anything else stays. *)
Definition standardize_cell (self : MedicalDataProcessor.t) (v : value) : value :=
  match v with
  | VStr k =>
      match dict_get (MedicalDataProcessor.contrast_standardization_map self) k with
      | Some canonical => VStr canonical
      | None => v
      end
  | _ => v
  end.

(** The value each encoder returns for one cell under the configured
    tables. *)
Definition exam_flag (v : value) : value :=
  if isna v then VNone
  else VInt (or_flags (fun terms => MedicalDataProcessor.any_term terms
                                      (MedicalDataProcessor.clean_text v))
               (exam_rows (MedicalDataProcessor.exam_categories
                             MedicalDataProcessor.init)) 0).

Definition organ_flag (v : value) : value :=
  if isna v then VNone
  else VInt (or_flags (fun terms => MedicalDataProcessor.any_term terms
                                      (MedicalDataProcessor.clean_text v))
               (organ_rows (MedicalDataProcessor.organ_clusters
                              MedicalDataProcessor.init)) 0).

(** The pipeline as a sequence of column reads and writes: each step reads
    one column of the frame as it then is, and fails with a key error when
    that column is absent, leaving the earlier writes in place. *)
Definition pipeline (e o c ef of' cf : string)
    (E O S C : list value -> list value)
    (df : gmap string (list value)) : gmap string (list value) * result unit :=
  match df !! e with
  | None => (df, Raise (KeyError e))
  | Some exam =>
      let df1 := <[ef := E exam]> df in
      match df1 !! o with
      | None => (df1, Raise (KeyError o))
      | Some organ =>
          let df2 := <[of' := O organ]> df1 in
          match df2 !! c with
          | None => (df2, Raise (KeyError c))
          | Some contrast =>
              let df3 := <[c := S contrast]> df2 in
              (<[cf := C (S contrast)]> df3, Ok tt)
          end
      end
  end.

End Spec.

(* ===================================================================== *)
(** ** Notions the further properties are phrased in *)
(* ===================================================================== *)

Module Notions.
Import Py.

(** A token that the second statement of the [try] block leaves as it is:
    nothing to strip at either end and no comma. *)
Definition clean_token (t : string) : bool :=
  String.eqb (replace "," "" (strip t)) t.

(** The characters that end the captured run of the label pattern. *)
Definition stops (c : ascii) : bool :=
  Ascii.eqb c "." || Ascii.eqb c MedicalDataProcessor.newline.

(** The characters the cleaning of the encoders does not delete: word
    characters, whitespace, and the hyphen (which becomes a space). *)
Definition kept (c : ascii) : bool :=
  is_word c || isspace c || Ascii.eqb c "-".

(** An entry of the exam flag dict whose category the exam table lacks. *)
Definition category_missing (self : MedicalDataProcessor.t) (entry : string * Z) : bool :=
  negb (bool_decide (is_Some (dict_get (MedicalDataProcessor.exam_categories self)
                                (fst entry)))).

(** An entry of the organ table that has a term matching the cleaned phrase
    and whose cluster has no token. *)
Definition cluster_unflagged (cleaned : string) (entry : string * list string) : bool :=
  MedicalDataProcessor.any_term (snd entry) cleaned
  && negb (bool_decide (is_Some (dict_get MedicalDataProcessor.cluster_tokens (fst entry)))).

End Notions.

(* ===================================================================== *)
(** ** Facts about the string primitives *)
(* ===================================================================== *)

Section StringFacts.
Import Py.

Lemma str_app_nil_l (s : string) : "" +:+ s = s.
Proof. reflexivity. Qed.

Lemma str_app_cons (c : ascii) (s t : string) :
  String c s +:+ t = String c (s +:+ t).
Proof. reflexivity. Qed.

Lemma str_app_nil_r (s : string) : s +:+ "" = s.
Proof. induction s as [|c s IH]; [reflexivity|]. by rewrite str_app_cons, IH. Qed.

Lemma str_app_assoc (s t u : string) : (s +:+ t) +:+ u = s +:+ t +:+ u.
Proof.
  induction s as [|c s IH]; [reflexivity|].
  by rewrite !str_app_cons, IH.
Qed.

Lemma str_app_length (s t : string) :
  String.length (s +:+ t) = String.length s + String.length t.
Proof.
  induction s as [|c s IH]; [reflexivity|].
  rewrite str_app_cons. simpl. by rewrite IH.
Qed.

Lemma split_nonempty (sep : ascii) (s : string) : split sep s <> [].
Proof.
  induction s as [|c s IH]; simpl; [done|].
  destruct (Ascii.eqb c sep); [done|].
  by destruct (split sep s).
Qed.

Lemma first_index_none (p : string -> bool) (l : list string) :
  first_index p l = None <-> Forall (fun e => p e = false) l.
Proof.
  induction l as [|x l IH]; simpl.
  - split; [constructor|done].
  - destruct (p x) eqn:Hx.
    + split; [done|]. intros H. inversion H; congruence.
    + destruct (first_index p l) as [n|] eqn:Hf; simpl.
      * split; [done|]. intros H. inversion H as [|? ? _ Hl]; subst.
        apply IH in Hl. done.
      * split; [|done]. intros _. constructor; [done|]. by apply IH.
Qed.

Lemma first_index_some (p : string -> bool) (l : list string) (m : nat) :
  first_index p l = Some m ->
  exists kw, l = take m l ++ kw :: drop (S m) l
    /\ drop m l = kw :: drop (S m) l
    /\ p kw = true
    /\ Forall (fun e => p e = false) (take m l).
Proof.
  revert m. induction l as [|x l IH]; intros m; simpl; [done|].
  destruct (p x) eqn:Hx.
  - intros [= <-]. exists x. simpl. rewrite drop_0. repeat split; auto.
  - destruct (first_index p l) as [n|] eqn:Hf; simpl; [|done].
    intros [= <-]. destruct (IH n eq_refl) as (kw & E1 & E2 & Hkw & Hall).
    exists kw. simpl. repeat split; auto.
    by f_equal.
Qed.

End StringFacts.

(* ===================================================================== *)
(** ** The referral segmenter, [format_referral] *)
(* ===================================================================== *)

Section Segmenter.
Import Py.
Import MedicalDataProcessor.

Ltac case_first_index :=
  match goal with
  | |- context [first_index ?p ?l] => destruct (first_index p l)
  end.

Lemma elements_of_nonempty (row : string) : elements_of row <> [].
Proof.
  unfold elements_of. pose proof (split_nonempty " " row) as H.
  by destruct (split " " row).
Qed.

(** The two classes carry the same method text. *)
Lemma format_referral_same (self : t) (row : value) :
  DataCleaner.format_referral
    {| DataCleaner.keywords := keywords self; DataCleaner.ct_types := ct_types self |} row
  = format_referral self row.
Proof. reflexivity. Qed.

Lemma clean_recommendation_same (text : string) :
  DataCleaner.clean_recommendation text = clean_recommendation text.
Proof. reflexivity. Qed.

(** The body of the [try] block never raises and always names an exam and a
    body part: [split] yields at least one token, so [elements[0]] exists. *)
Lemma format_referral_try_ok (self : t) (row : string) :
  exists exam body contrast,
    format_referral_try self row = Ok (Some exam, Some body, contrast).
Proof.
  unfold format_referral_try.
  pose proof (elements_of_nonempty row) as Hne.
  destruct (first_index _ (elements_of row)) as [k|]; simpl.
  - case_first_index; eauto.
  - destruct (elements_of row) as [|e es]; [done|]. simpl.
    case_first_index; eauto.
Qed.

Lemma keyword_split_drop (self : t) (rest : list string) :
  exists body contrast,
    match first_index (fun element => str_in element (keywords self)) rest with
    | Some keyword_index =>
        (Some (join " " (take keyword_index rest)),
         Some (join " " (drop keyword_index rest)))
    | None => (Some (join " " rest), None)
    end = (body, contrast)
    /\ Spec.keyword_split (keywords self) rest body contrast.
Proof.
  destruct (first_index _ rest) as [m|] eqn:Hf.
  - apply first_index_some in Hf as (kw & E1 & E2 & Hkw & Hall).
    eexists _, _. split; [reflexivity|].
    rewrite E2. rewrite E1 at 1. by constructor.
  - apply first_index_none in Hf.
    eexists _, _. split; [reflexivity|]. by constructor.
Qed.

(** C5: segmenting "CT scan abdomen with iv contrast" gives exam "CT scan",
    body part "abdomen" and contrast "with iv contrast"; "scan" is a CT type
    and "with" a contrast keyword of the configured vocabularies.  Both
    classes agree. *)
Theorem format_referral_ct_scan_abdomen :
  format_referral init (VStr "CT scan abdomen with iv contrast")
    = (Some "CT scan", Some "abdomen", Some "with iv contrast")
  /\ DataCleaner.format_referral DataCleaner.init (VStr "CT scan abdomen with iv contrast")
    = (Some "CT scan", Some "abdomen", Some "with iv contrast")
  /\ str_in "scan" (ct_types init) = true
  /\ str_in "with" (keywords init) = true.
Proof. repeat split; reflexivity. Qed.

(** C6: when no token of the phrase is a CT type, the exam is the first token
    alone and exactly the tokens after it are scanned for the first contrast
    keyword, which splits them into body part and contrast. *)
Theorem format_referral_no_ct_type (self : t) (row : string) :
  Forall (fun e => str_in e (ct_types self) = false) (elements_of row) ->
  exists first rest body contrast,
    elements_of row = first :: rest
    /\ format_referral self (VStr row) = (Some first, body, contrast)
    /\ Spec.keyword_split (keywords self) rest body contrast.
Proof.
  intros Hct. apply first_index_none in Hct.
  pose proof (elements_of_nonempty row) as Hne.
  destruct (elements_of row) as [|first rest] eqn:He; [done|].
  destruct (keyword_split_drop self rest) as (body & contrast & Heq & Hsplit).
  exists first, rest, body, contrast. repeat split; [|done].
  unfold format_referral, format_referral_try. rewrite He, Hct. simpl.
  rewrite drop_0. case_first_index; by inversion Heq.
Qed.

Lemma format_referral_no_ct_type_witness :
  exists first rest body contrast,
    elements_of "MRI brain, without iv contrast" = first :: rest
    /\ format_referral init (VStr "MRI brain, without iv contrast")
        = (Some first, body, contrast)
    /\ Spec.keyword_split (keywords init) rest body contrast.
Proof.
  apply (format_referral_no_ct_type init "MRI brain, without iv contrast").
  vm_compute. repeat (constructor; [reflexivity|]). constructor.
Defined.

(** C9: the empty string is a string, so it is segmented, not rejected: the
    exam is the single empty token, the body part the join of no tokens, the
    contrast null.  The body of the [try] block never raises on a string, so
    the all-null result is exactly the result for non-string inputs. *)
Theorem format_referral_empty_string (self : t) :
  format_referral self (VStr "") = (Some "", Some "", None)
  /\ DataCleaner.format_referral DataCleaner.init (VStr "") = (Some "", Some "", None)
  /\ (forall row : string, exists exam body contrast,
        format_referral_try self row = Ok (Some exam, Some body, contrast))
  /\ (forall row : value,
        format_referral self row = (None, None, None) <-> is_str row = false).
Proof.
  split; [|split; [reflexivity|split; [apply format_referral_try_ok|]]].
  - unfold format_referral, format_referral_try. simpl.
    by destruct (str_in "" (ct_types self)).
  - intros row. destruct row as [|s|z]; simpl; try done.
    destruct (format_referral_try_ok self s) as (e & b & c & ->). done.
Qed.

End Segmenter.

(* ===================================================================== *)
(** ** Facts about the matcher *)
(* ===================================================================== *)

Section MatcherFacts.
Import Py.
Import Re.
Import Spec.

Lemma prev_after_nil (prev : option ascii) : prev_after prev "" = prev.
Proof. reflexivity. Qed.

Lemma last_char_cons (c : ascii) (t : string) :
  exists d, last_char (String c t) = Some d.
Proof.
  revert c. induction t as [|c' t IH]; intros c; [by exists c|].
  destruct (IH c') as [d Hd]. exists d. simpl in *. by rewrite Hd.
Qed.

Lemma prev_after_cons (prev : option ascii) (c : ascii) (t : string) :
  prev_after prev (String c t) = prev_after (Some c) t.
Proof.
  unfold prev_after. simpl. destruct t as [|d t]; [reflexivity|].
  by destruct (last_char_cons d t) as [e ->].
Qed.

Lemma prev_after_app (prev : option ascii) (s t : string) :
  prev_after prev (s +:+ t) = prev_after (prev_after prev s) t.
Proof.
  revert prev. induction s as [|c s IH]; intros prev; [reflexivity|].
  by rewrite str_app_cons, !prev_after_cons, IH.
Qed.

Lemma prev_after_none (t : string) : prev_after None t = last_char t.
Proof. unfold prev_after. by destruct (last_char t). Qed.

Lemma lit_match_exact (t lab : string) : lit_match false t lab = true <-> lab = t.
Proof.
  revert lab. induction t as [|c t IH]; intros [|d lab]; simpl; try done.
  rewrite andb_true_iff, IH, Ascii.eqb_eq. split.
  - by intros [-> ->].
  - by intros [= -> ->].
Qed.

Lemma lit_match_lower (t lab : string) :
  lit_match true t lab = true <-> lower lab = lower t.
Proof.
  revert lab. induction t as [|c t IH]; intros [|d lab]; simpl; try done.
  rewrite andb_true_iff, IH, Ascii.eqb_eq. split.
  - by intros [-> ->].
  - by intros [= -> ->].
Qed.

(** A literal consumes exactly a prefix it can match. *)
Lemma rmatch_escape (ic : bool) (t : string) (k : cont)
    (prev : option ascii) (s : string) (cs m : captures) :
  rmatch ic (escape t) k prev s cs = Some m <->
  exists lab suf, s = lab +:+ suf /\ lit_match ic t lab = true
    /\ k (prev_after prev lab) suf cs = Some m.
Proof.
  revert prev s. induction t as [|c t IH]; intros prev s; simpl.
  - split.
    + intros H. by exists "", s.
    + intros (lab & suf & -> & Hl & H). by destruct lab.
  - destruct s as [|d s].
    + split; [done|]. intros (lab & suf & E & Hl & _).
      destruct lab; [done|]. by rewrite str_app_cons in E.
    + destruct (chr_eq ic c d) eqn:Hcd.
      * rewrite IH. split.
        -- intros (lab & suf & -> & Hl & H). exists (String d lab), suf.
           rewrite str_app_cons, prev_after_cons. simpl. by rewrite Hcd, Hl.
        -- intros (lab & suf & E & Hl & H). destruct lab as [|d' lab]; [done|].
           rewrite str_app_cons in E. injection E as <- ->.
           apply andb_true_iff in Hl as [_ Hl].
           rewrite prev_after_cons in H. by exists lab, suf.
      * split; [done|]. intros (lab & suf & E & Hl & _).
        destruct lab as [|d' lab]; [done|].
        rewrite str_app_cons in E. injection E as <- ->.
        apply andb_true_iff in Hl as [Hl _]. congruence.
Qed.

(** Greedy repetition ends after some run of matching characters. *)
Lemma star_loop_some (p : ascii -> bool) (k : cont)
    (prev : option ascii) (s : string) (cs m : captures) :
  star_loop p k prev s cs = Some m ->
  exists ws suf, s = ws +:+ suf /\ all_chars p ws = true
    /\ k (prev_after prev ws) suf cs = Some m.
Proof.
  revert prev. induction s as [|c s IH]; intros prev; simpl.
  - intros H. by exists "", "".
  - destruct (p c) eqn:Hc.
    + destruct (star_loop p k (Some c) s cs) eqn:Hs.
      * intros [= <-]. destruct (IH _ Hs) as (ws & suf & -> & Hws & H).
        exists (String c ws), suf. rewrite str_app_cons, prev_after_cons.
        simpl. by rewrite Hc.
      * intros H. by exists "", (String c s).
    + intros H. by exists "", (String c s).
Qed.

(** [search_from] succeeds exactly when the pattern matches at some
    position. *)
Lemma search_from_some (ic : bool) (r : regex) (prev : option ascii) (s : string) :
  is_Some (search_from ic r prev s) <->
  exists pre suf, s = pre +:+ suf
    /\ is_Some (rmatch ic r accept (prev_after prev pre) suf []).
Proof.
  revert prev. induction s as [|c s IH]; intros prev; simpl.
  - destruct (rmatch ic r accept prev "" []) eqn:Hm.
    + split; [|eauto]. intros _. exists "", "". by rewrite prev_after_nil, Hm.
    + split; [by intros []|]. intros (pre & suf & E & H).
      destruct pre; [|done]. rewrite str_app_nil_l in E. subst suf.
      rewrite prev_after_nil, Hm in H. by destruct H.
  - destruct (rmatch ic r accept prev (String c s) []) eqn:Hm.
    + split; [|eauto]. intros _. exists "", (String c s).
      by rewrite prev_after_nil, Hm.
    + rewrite IH. split.
      * intros (pre & suf & -> & H). exists (String c pre), suf.
        by rewrite str_app_cons, prev_after_cons.
      * intros (pre & suf & E & H). destruct pre as [|c' pre].
        -- rewrite str_app_nil_l in E. subst suf.
           rewrite prev_after_nil, Hm in H. by destruct H.
        -- rewrite str_app_cons in E. injection E as <- ->.
           rewrite prev_after_cons in H. by exists pre, suf.
Qed.

(** Positions where the pattern does not match are skipped. *)
Lemma search_from_skip (ic : bool) (r : regex) (prev : option ascii)
    (pre s : string) :
  (forall p q, pre = p +:+ q -> q <> "" ->
     rmatch ic r accept (prev_after prev p) (q +:+ s) [] = None) ->
  search_from ic r prev (pre +:+ s) = search_from ic r (prev_after prev pre) s.
Proof.
  revert prev. induction pre as [|c pre IH]; intros prev Hno; [reflexivity|].
  pose proof (Hno "" (String c pre) eq_refl) as H0.
  rewrite prev_after_nil, str_app_cons in H0.
  rewrite str_app_cons, prev_after_cons. simpl. rewrite H0; [|done].
  apply IH. intros p q -> Hq.
  rewrite <- (prev_after_cons prev). by apply (Hno (String c p) q).
Qed.

End MatcherFacts.

(* ===================================================================== *)
(** ** The taxonomy encoders *)
(* ===================================================================== *)

Section Encoder.
Import Py.
Import Re.
Import Spec.
Import MedicalDataProcessor.

Lemma all_chars_app (p : ascii -> bool) (s t : string) :
  all_chars p (s +:+ t) = all_chars p s && all_chars p t.
Proof.
  induction s as [|c s IH]; [reflexivity|].
  rewrite str_app_cons. simpl. by rewrite IH, andb_assoc.
Qed.

Lemma word_after_edged (t suf : string) :
  word_before (first_char t) = true -> word_after (t +:+ suf) = true.
Proof. by destruct t. Qed.

Lemma prev_after_edged (prev : option ascii) (t : string) :
  word_before (last_char t) = true ->
  word_before (prev_after prev t) = true.
Proof. unfold prev_after. by destruct (last_char t). Qed.

(** The word pattern at one position. *)
Lemma word_pattern_at (t : string) (prev : option ascii) (s : string) :
  is_Some (rmatch false (word_pattern t) accept prev s []) <->
  xorb (word_before prev) (word_after s) = true
  /\ exists suf, s = t +:+ suf
       /\ xorb (word_before (prev_after prev t)) (word_after suf) = true.
Proof.
  unfold word_pattern. simpl.
  destruct (xorb (word_before prev) (word_after s)).
  - split.
    + intros [m Hm]. split; [done|].
      apply rmatch_escape in Hm as (lab & suf & -> & Hl & Hk).
      apply lit_match_exact in Hl as ->. exists suf. split; [done|].
      simpl in Hk. by destruct (xorb _ _).
    + intros [_ (suf & -> & Hx)].
      exists []. apply rmatch_escape. exists t, suf.
      split; [done|]. split; [by apply lit_match_exact|].
      simpl. by rewrite Hx.
  - split; [by intros []|]. by intros [].
Qed.

(** For a term that starts and ends with a word character, the search
    [\bterm\b] succeeds exactly on a whole-word occurrence. *)
Lemma search_word_pattern (t s : string) :
  word_edged t = true ->
  is_Some (search false (word_pattern t) s) <-> whole_word t s.
Proof.
  intros Hedge. apply andb_true_iff in Hedge as [Hfirst Hlast].
  unfold search. rewrite search_from_some. unfold whole_word. split.
  - intros (pre & suf0 & -> & Hm).
    apply word_pattern_at in Hm as [Hb (suf & -> & He)].
    rewrite prev_after_none in *.
    rewrite (word_after_edged _ _ Hfirst) in Hb.
    rewrite (prev_after_edged _ _ Hlast) in He.
    exists pre, suf. repeat split.
    + by destruct (word_before (last_char pre)).
    + by destruct (word_after suf).
  - intros (pre & suf & -> & Hb & He).
    exists pre, (t +:+ suf). split; [done|].
    apply word_pattern_at. rewrite prev_after_none.
    rewrite (word_after_edged _ _ Hfirst), Hb. split; [done|].
    exists suf. split; [done|].
    by rewrite (prev_after_edged _ _ Hlast), He.
Qed.

(** Any successful search, whatever the term, finds the term in the text. *)
Lemma search_word_pattern_occurs (t s : string) :
  is_Some (search false (word_pattern t) s) ->
  exists pre suf, s = pre +:+ t +:+ suf.
Proof.
  unfold search. rewrite search_from_some.
  intros (pre & suf0 & -> & Hm).
  apply word_pattern_at in Hm as [_ (suf & -> & _)]. by exists pre, suf.
Qed.

Lemma any_term_true (terms : list string) (cleaned : string) :
  any_term terms cleaned = true <->
  exists term, term ∈ terms
    /\ is_Some (search false (word_pattern term) cleaned).
Proof.
  unfold any_term. rewrite existsb_exists. split.
  - intros (term & Hin & H). exists term. split; [by apply list_elem_of_In|].
    by apply bool_decide_eq_true in H.
  - intros (term & Hin & H). exists term. split; [by apply list_elem_of_In|].
    by apply bool_decide_eq_true.
Qed.

Lemma sub_set_hyphen (s : string) :
  sub_set (CSet false [IChar "-"]) " " s = replace "-" " " s.
Proof.
  induction s as [|c s IH]; [reflexivity|]. simpl.
  rewrite orb_false_r. unfold chr_eq. rewrite Ascii.eqb_sym.
  by destruct (Ascii.eqb c "-"); rewrite IH.
Qed.

Lemma sub_set_non_word_space (s : string) :
  sub_set (CSet true [IWord; ISpace]) "" s
  = keep_chars (fun c => is_word c || isspace c) s.
Proof.
  induction s as [|c s IH]; [reflexivity|]. simpl.
  rewrite orb_false_r.
  destruct (is_word c || isspace c); simpl; by rewrite IH.
Qed.

(** What the two substitutions leave: the lower-cased text with hyphens as
    spaces, and of it only word characters and whitespace. *)
Lemma clean_text_keep (x : value) :
  clean_text x
  = keep_chars (fun c => is_word c || isspace c) (lower (replace "-" " " (str x))).
Proof.
  unfold clean_text. by rewrite sub_set_non_word_space, sub_set_hyphen.
Qed.

Lemma keep_chars_all (p : ascii -> bool) (s : string) :
  all_chars p (keep_chars p s) = true.
Proof.
  induction s as [|c s IH]; [reflexivity|]. simpl.
  destruct (p c) eqn:Hc; [|done]. simpl. by rewrite Hc.
Qed.

Lemma clean_text_chars (x : value) :
  all_chars (fun c => is_word c || isspace c) (clean_text x) = true.
Proof. rewrite clean_text_keep. apply keep_chars_all. Qed.

Lemma any_punct_not_all (t : string) :
  any_char is_punct t = true ->
  all_chars (fun c => is_word c || isspace c) t = false.
Proof.
  induction t as [|c t IH]; simpl; [done|].
  unfold is_punct at 1.
  destruct (is_word c), (isspace c); simpl; auto.
Qed.

Lemma or_flags_testbit (hit : list string -> bool)
    (rows : list (list string * Z)) (flag : Z) (k : Z) :
  Z.testbit (or_flags hit rows flag) k
  = Z.testbit flag k
    || existsb (fun row => hit (fst row) && Z.testbit (snd row) k) rows.
Proof.
  unfold or_flags. revert flag.
  induction rows as [|[terms f] rows IH]; intros flag; simpl.
  - by rewrite orb_false_r.
  - rewrite IH. destruct (hit terms); simpl; [|done].
    by rewrite Z.lor_spec, orb_assoc.
Qed.

Lemma or_flags_cons (hit : list string -> bool) (row : list string * Z)
    (rows : list (list string * Z)) (flag : Z) :
  or_flags hit (row :: rows) flag
  = or_flags hit rows (if hit (fst row) then Z.lor flag (snd row) else flag).
Proof. reflexivity. Qed.

(** The organ loop never raises when every cluster has a token, and then
    or-s the tokens of the clusters that have a matching term. *)
Lemma organ_loop_or_flags (cleaned : string) (items : dict (list string)) (flag : Z) :
  Forall (fun entry => is_Some (dict_get cluster_tokens (fst entry))) items ->
  organ_loop cleaned items flag
  = Ok (or_flags (fun terms => any_term terms cleaned) (organ_rows items) flag).
Proof.
  intros Hkeys. revert flag.
  induction Hkeys as [|[cluster terms] items [token Htok] _ IH]; intros flag;
    [reflexivity|].
  cbn [fst] in Htok. cbn [organ_loop]. unfold dict_item. rewrite Htok.
  cbn [bind]. unfold organ_rows. cbn [List.map fst snd].
  rewrite or_flags_cons, Htok. cbn [fst snd default from_option id].
  destruct (any_term terms cleaned); apply IH.
Qed.

(** The exam loop never raises when every category of the flag dict is a
    key of the exam table. *)
Lemma exam_loop_or_flags (self : t) (cleaned : string) (items : dict Z) (flag : Z) :
  Forall (fun entry => is_Some (dict_get (exam_categories self) (fst entry))) items ->
  exam_loop self cleaned items flag
  = Ok (or_flags (fun terms => any_term terms cleaned)
          (List.map (fun entry =>
                       (default [] (dict_get (exam_categories self) (fst entry)),
                        snd entry)) items)
          flag).
Proof.
  intros Hkeys. revert flag.
  induction Hkeys as [|[category f] items [terms Hterms] _ IH]; intros flag;
    [reflexivity|].
  cbn [fst] in Hterms. cbn [exam_loop]. unfold dict_item. rewrite Hterms.
  cbn [bind List.map fst snd].
  rewrite or_flags_cons, Hterms. cbn [fst snd default from_option id].
  destruct (any_term terms cleaned); apply IH.
Qed.

Lemma tokenize_and_flag_organs_ok (phrase : value) :
  isna phrase = false ->
  tokenize_and_flag_organs init phrase
  = Ok (VInt (or_flags (fun terms => any_term terms (clean_text phrase))
                (organ_rows (organ_clusters init)) 0)).
Proof.
  intros Hna. unfold tokenize_and_flag_organs. rewrite Hna.
  rewrite organ_loop_or_flags; [reflexivity|].
  repeat (constructor; [by eexists|]). constructor.
Qed.

Lemma map_exam_to_binary_flag_ok (exam_name : value) :
  isna exam_name = false ->
  map_exam_to_binary_flag init exam_name
  = Ok (VInt (or_flags (fun terms => any_term terms (clean_text exam_name))
                (exam_rows (exam_categories init)) 0)).
Proof.
  intros Hna. unfold map_exam_to_binary_flag. rewrite Hna.
  rewrite exam_loop_or_flags; [reflexivity|].
  repeat (constructor; [by eexists|]). constructor.
Qed.

Ltac bool_tidy :=
  rewrite ?andb_true_r, ?andb_false_r, ?orb_false_r, ?orb_false_l.

(** In the organ table the token of the [i]-th cluster is bit [i], and no
    other token has that bit. *)
Lemma organ_rows_bit (hit : list string -> bool) (i : nat)
    (cluster : string) (terms : list string) :
  organ_clusters init !! i = Some (cluster, terms) ->
  existsb (fun row => hit (fst row) && Z.testbit (snd row) (Z.of_nat i))
    (organ_rows (organ_clusters init))
  = hit terms.
Proof.
  intros Hi.
  do 10 (destruct i as [|i];
         [injection Hi as <- <-; cbn; bool_tidy; reflexivity|]).
  discriminate Hi.
Qed.

Lemma exam_rows_bit (hit : list string -> bool) (i : nat)
    (category : string) (terms : list string) :
  exam_categories init !! i = Some (category, terms) ->
  existsb (fun row => hit (fst row) && Z.testbit (snd row) (Z.of_nat i))
    (exam_rows (exam_categories init))
  = hit terms.
Proof.
  intros Hi.
  do 8 (destruct i as [|i];
        [injection Hi as <- <-; cbn; bool_tidy; reflexivity|]).
  discriminate Hi.
Qed.

(** Every configured trigger term starts and ends with a word character. *)
Lemma configured_terms_edged (table : dict (list string)) (i : nat)
    (name : string) (terms : list string) (term : string) :
  table = organ_clusters init \/ table = exam_categories init ->
  table !! i = Some (name, terms) -> term ∈ terms -> word_edged term = true.
Proof.
  intros Htable Hi Hterm.
  assert (forallb (fun entry => forallb word_edged (snd entry)) table = true) as Hall
    by (destruct Htable as [-> | ->]; vm_compute; reflexivity).
  rewrite forallb_forall in Hall.
  apply list_elem_of_lookup_2, list_elem_of_In in Hi.
  specialize (Hall _ Hi). cbn [snd] in Hall.
  rewrite forallb_forall in Hall. by apply Hall, list_elem_of_In.
Qed.

(** One bit of a bitmask built by [or_flags] from a configured table. *)
Lemma table_bit_iff (table : dict (list string)) (rows : list (list string * Z))
    (cleaned : string) (i : nat) (name : string) (terms : list string) :
  table = organ_clusters init \/ table = exam_categories init ->
  table !! i = Some (name, terms) ->
  existsb (fun row => any_term (fst row) cleaned && Z.testbit (snd row) (Z.of_nat i)) rows
    = any_term terms cleaned ->
  Z.testbit (or_flags (fun terms => any_term terms cleaned) rows 0) (Z.of_nat i) = true
  <-> exists term, term ∈ terms /\ whole_word term cleaned.
Proof.
  intros Htable Hi Hrow.
  rewrite or_flags_testbit, Z.testbit_0_l, orb_false_l, Hrow, any_term_true.
  split; intros (term & Hin & H); exists term; (split; [done|]);
    by apply (search_word_pattern term cleaned
                (configured_terms_edged table i name terms term Htable Hi Hin)).
Qed.

(** C3 (amended): for a non-null segment, bit [i] of either encoder's
    bitmask is set exactly when a trigger term of category [i] occurs as a
    whole word in the cleaned segment, where cleaning turns hyphens into
    spaces, lower-cases, and keeps only word characters (letters, digits
    and the underscore) and whitespace; "kidney stone" sets the
    abdomen_pelvis bit and nothing else, "kidneystone" sets no bit. *)
Theorem encoder_bit_iff_whole_word :
  (forall phrase : value, isna phrase = false ->
     clean_text phrase
       = keep_chars (fun c => is_word c || isspace c)
           (lower (replace "-" " " (str phrase)))
     /\ (exists z, tokenize_and_flag_organs init phrase = Ok (VInt z)
          /\ forall i cluster terms,
               organ_clusters init !! i = Some (cluster, terms) ->
               Z.testbit z (Z.of_nat i) = true
               <-> exists term, term ∈ terms /\ whole_word term (clean_text phrase))
     /\ (exists z, map_exam_to_binary_flag init phrase = Ok (VInt z)
          /\ forall i category terms,
               exam_categories init !! i = Some (category, terms) ->
               Z.testbit z (Z.of_nat i) = true
               <-> exists term, term ∈ terms /\ whole_word term (clean_text phrase)))
  /\ organ_clusters init !! 3%nat
       = Some ("abdomen_pelvis", default [] (dict_get (organ_clusters init) "abdomen_pelvis"))
  /\ tokenize_and_flag_organs init (VStr "kidney stone") = Ok (VInt (Z.shiftl 1 3))
  /\ tokenize_and_flag_organs init (VStr "kidneystone") = Ok (VInt 0).
Proof.
  split; [|repeat split; vm_compute; reflexivity].
  intros phrase Hna. split; [apply clean_text_keep|]. split.
  - eexists. split; [by apply tokenize_and_flag_organs_ok|].
    intros i cluster terms Hi.
    apply (table_bit_iff (organ_clusters init) _ _ i cluster terms); auto.
    exact (organ_rows_bit (fun ts => any_term ts (clean_text phrase))
             i cluster terms Hi).
  - eexists. split; [by apply map_exam_to_binary_flag_ok|].
    intros i category terms Hi.
    apply (table_bit_iff (exam_categories init) _ _ i category terms); auto.
    exact (exam_rows_bit (fun ts => any_term ts (clean_text phrase))
             i category terms Hi).
Qed.

Lemma encoder_bit_iff_whole_word_witness :
  exists z, tokenize_and_flag_organs init (VStr "Left-Kidney, MRI") = Ok (VInt z)
    /\ forall i cluster terms,
         organ_clusters init !! i = Some (cluster, terms) ->
         Z.testbit z (Z.of_nat i) = true
         <-> exists term, term ∈ terms
              /\ whole_word term (clean_text (VStr "Left-Kidney, MRI")).
Proof.
  apply (proj1 encoder_bit_iff_whole_word (VStr "Left-Kidney, MRI")).
  reflexivity.
Defined.

(** C3 as stated fails: with the cleaning worded as stripping everything
    that is not alphanumeric or whitespace, "_kidney" cleans to "kidney",
    a whole-word occurrence of an abdomen_pelvis term, yet the encoder keeps
    the underscore, finds no word boundary and leaves bit 3 clear. *)
Lemma encoder_bit_underscore_counterexample :
  ~ (forall z, tokenize_and_flag_organs init (VStr "_kidney") = Ok (VInt z) ->
       Z.testbit z 3 = true
       <-> exists term,
             term ∈ default [] (dict_get (organ_clusters init) "abdomen_pelvis")
             /\ whole_word term (spec_clean "_kidney")).
Proof.
  intros H. specialize (H 0%Z eq_refl). destruct H as [_ H].
  assert (Z.testbit 0 3 = true) as Hbit; [|discriminate Hbit].
  apply H. exists "kidney". split.
  - apply list_elem_of_In. vm_compute. tauto.
  - exists "", "". by vm_compute.
Qed.

(** C10: a trigger term containing a character that is neither a word
    character nor whitespace never matches any input, because the cleaned
    text holds only word characters and whitespace while the pattern is the
    term's literal text; the configured terms of that kind are the eight
    listed; and the exam encoder returns 0 for "x-ray". *)
Theorem punctuated_term_never_matches :
  (forall (term : string) (x : value),
     any_char is_punct term = true ->
     Re.search false (word_pattern term) (clean_text x) = None)
  /\ List.filter (any_char is_punct)
       (concat (List.map snd (exam_categories init))
        ++ concat (List.map snd (organ_clusters init)))
     = ["ct, x-ray"; "ct, ct urography"; "ct, xray";
        "arterial/venous duplex ultrasound"; "x-ray";
        "general health check-up"; "general check-up"; "check-up"]
  /\ map_exam_to_binary_flag init (VStr "x-ray") = Ok (VInt 0).
Proof.
  split; [|split; vm_compute; reflexivity].
  intros term x Hpunct.
  destruct (Re.search false (word_pattern term) (clean_text x)) as [m|] eqn:Hs;
    [|reflexivity].
  destruct (search_word_pattern_occurs term (clean_text x)) as (pre & suf & E);
    [by rewrite Hs|].
  pose proof (clean_text_chars x) as Hall.
  rewrite E, !all_chars_app in Hall.
  apply andb_true_iff in Hall as [_ Hall].
  apply andb_true_iff in Hall as [Hall _].
  by rewrite (any_punct_not_all term Hpunct) in Hall.
Qed.

Lemma punctuated_term_never_matches_witness :
  Re.search false (word_pattern "x-ray") (clean_text (VStr "x-ray")) = None.
Proof.
  apply (proj1 punctuated_term_never_matches "x-ray" (VStr "x-ray")).
  reflexivity.
Defined.

End Encoder.

(* ===================================================================== *)
(** ** The recommendation extractor, [clean_recommendation] *)
(* ===================================================================== *)

Section Extractor.
Import Py.
Import Re.
Import Spec.
Import MedicalDataProcessor.

Lemma all_chars_ext (p q : ascii -> bool) (s : string) :
  (forall c, p c = q c) -> all_chars p s = all_chars q s.
Proof.
  intros Hpq. induction s as [|c s IH]; [reflexivity|]. simpl.
  by rewrite Hpq, IH.
Qed.

Lemma lower_char_colon (d : ascii) : lower_char ":" = lower_char d -> d = ":"%char.
Proof.
  destruct d as [[] [] [] [] [] [] [] []]; vm_compute; intros H;
    first [reflexivity | discriminate H].
Qed.

Lemma consumed_app (a b : string) : consumed (a +:+ b) b = a.
Proof.
  unfold consumed. rewrite str_app_length.
  replace (String.length a + String.length b - String.length b)
    with (String.length a) by lia.
  induction a as [|c a IH].
  - rewrite str_app_nil_l. by destruct b.
  - rewrite str_app_cons. simpl. by rewrite IH.
Qed.

Lemma space_set_matches (c : ascii) : cset_matches true space_set c = isspace c.
Proof. simpl. by rewrite orb_false_r. Qed.

Lemma stop_set_matches (c : ascii) :
  cset_matches true stop_set c = true <-> c <> "."%char /\ c <> newline.
Proof.
  simpl. rewrite orb_false_r. unfold chr_eq. split.
  - intros H. split; intros ->; by vm_compute in H.
  - intros [H1 H2].
    destruct c as [[] [] [] [] [] [] [] []]; vm_compute; try reflexivity;
      by (exfalso; first [apply H1 | apply H2]).
Qed.

Lemma label_pattern_eq :
  label_pattern
  = Seq (Group 1 (Alt (escape "Recommendation") (escape "Exam"))) label_tail.
Proof. reflexivity. Qed.

(** A match of the tail: a colon, whitespace, and a captured run that
    starts with a character outside [.\n]. *)
Lemma label_tail_some (k : cont) (prev : option ascii) (s : string)
    (cs m : captures) :
  rmatch true label_tail k prev s cs = Some m ->
  exists ws ch rest,
    s = ":" +:+ ws +:+ String ch rest
    /\ all_chars isspace ws = true
    /\ ch <> "."%char /\ ch <> newline.
Proof.
  unfold label_tail. cbn [rmatch].
  destruct s as [|d s]; [done|].
  destruct (chr_eq true ":" d) eqn:Hd; [|done].
  apply Ascii.eqb_eq, lower_char_colon in Hd as ->.
  intros H. apply star_loop_some in H as (ws & suf & -> & Hws & H).
  rewrite (all_chars_ext _ _ _ space_set_matches) in Hws.
  destruct suf as [|ch rest]; [done|].
  destruct (cset_matches true stop_set ch) eqn:Hch; [|done].
  apply stop_set_matches in Hch as [H1 H2].
  exists ws, ch, rest. by rewrite str_app_cons, str_app_nil_l.
Qed.

(** Soundness of the label pattern at one position. *)
Lemma label_pattern_at (prev : option ascii) (s : string) (m : captures) :
  rmatch true label_pattern accept prev s [] = Some m -> label_at s.
Proof.
  rewrite label_pattern_eq. cbn [rmatch].
  set (K := fun (prev' : option ascii) (s' : string) (cs' : captures) =>
              rmatch true label_tail accept prev' s' ((1%nat, consumed s s') :: cs')).
  intros H.
  assert (exists lit lab suf m', (lit = "Recommendation" \/ lit = "Exam")
            /\ s = lab +:+ suf /\ lit_match true lit lab = true
            /\ K (prev_after prev lab) suf [] = Some m')
    as (lit & lab & suf & m' & Hlit & -> & Hlab & HK).
  { destruct (rmatch true (escape "Recommendation") K prev s []) eqn:H1.
    - apply rmatch_escape in H1 as (lab & suf & E & Hl & HK). eauto 10.
    - apply rmatch_escape in H as (lab & suf & E & Hl & HK). eauto 10. }
  unfold K in HK. apply label_tail_some in HK as (ws & ch & rest & -> & Hws & H1 & H2).
  exists lab, ws, ch, rest. repeat split; auto.
  apply lit_match_lower in Hlab. rewrite Hlab. by destruct Hlit as [-> | ->]; [left|right].
Qed.

Lemma search_none_no_label (text : string) :
  ~ has_label text -> search true label_pattern text = None.
Proof.
  intros Hno. destruct (search true label_pattern text) as [m|] eqn:Hs; [|done].
  exfalso. apply Hno.
  assert (is_Some (search_from true label_pattern None text)) as H
    by (unfold search in Hs; by rewrite Hs).
  apply search_from_some in H as (pre & suf & -> & [m' Hm]).
  exists pre, suf. split; [done|]. exact (label_pattern_at _ _ _ Hm).
Qed.

Lemma any_char_app (p : ascii -> bool) (s t : string) :
  any_char p (s +:+ t) = any_char p s || any_char p t.
Proof.
  induction s as [|c s IH]; [reflexivity|].
  rewrite str_app_cons. simpl. by rewrite IH, orb_assoc.
Qed.

Lemma has_label_colon (text : string) :
  has_label text -> any_char (Ascii.eqb ":") text = true.
Proof.
  intros (pre & s & -> & lab & ws & ch & rest & -> & _).
  rewrite !any_char_app. simpl. by rewrite !orb_true_r.
Qed.

(** What [rstrip_by] removes and what it leaves. *)
Lemma rstrip_by_spec (p : ascii -> bool) (s : string) :
  exists t, s = rstrip_by p s +:+ t
    /\ all_chars p t = true
    /\ forall c, last_char (rstrip_by p s) = Some c -> p c = false.
Proof.
  induction s as [|c s (t & E & Ht & Hlast)]; [by exists ""|].
  simpl. destruct (rstrip_by p s) as [|d r] eqn:Hr.
  - rewrite str_app_nil_l in E. subst t. destruct (p c) eqn:Hc.
    + exists (String c s). simpl. by rewrite Hc, Ht.
    + exists s. repeat split; [done|]. by intros ? [= <-].
  - exists t. rewrite str_app_cons, <- E. repeat split; [done|].
    intros c' Hc'. apply Hlast. by destruct r.
Qed.

(** C7 (amended): when the text holds no recognizable label, the result is
    the text with newlines replaced by spaces, stripped of leading and
    trailing whitespace, and then with all its trailing periods removed:
    what is cut off is a run of periods and what is left does not end in a
    period. *)
Theorem clean_recommendation_no_label (text : string) :
  ~ has_label text ->
  let trimmed := strip (replace newline " " text) in
  clean_recommendation text = Ok (rstrip "." trimmed)
  /\ exists dots, trimmed = rstrip "." trimmed +:+ dots
       /\ all_chars (Ascii.eqb ".") dots = true
       /\ last_char (rstrip "." trimmed) <> Some "."%char.
Proof.
  intros Hno trimmed. split.
  - unfold clean_recommendation. by rewrite (search_none_no_label text Hno).
  - destruct (rstrip_by_spec (Ascii.eqb ".") trimmed) as (dots & E & Hdots & Hlast).
    exists dots. repeat split; [done..|].
    intros Hl. by specialize (Hlast _ Hl).
Qed.

Lemma clean_recommendation_no_label_witness :
  clean_recommendation "see chart..." = Ok "see chart".
Proof.
  apply (clean_recommendation_no_label "see chart...").
  intros H. apply has_label_colon in H. discriminate H.
Defined.

(** C7 as stated fails: with two trailing periods, removing a single
    period would leave one, but [rstrip] removes both. *)
Lemma clean_recommendation_single_period_counterexample :
  ~ (forall text : string, ~ has_label text ->
       clean_recommendation text
       = Ok (drop_one_period (strip (replace newline " " text)))).
Proof.
  intros H. specialize (H "foo..").
  assert (~ has_label "foo..") as Hno
    by (intros Hl; apply has_label_colon in Hl; discriminate Hl).
  specialize (H Hno). vm_compute in H. discriminate H.
Qed.

(** Greedy repetition keeps the whole run when the continuation accepts
    after it and the next character is outside the set. *)
Lemma star_loop_run (p : ascii -> bool) (k : cont) (prev : option ascii)
    (ws s : string) (cs m : captures) :
  all_chars p ws = true ->
  (forall c, first_char s = Some c -> p c = false) ->
  k (prev_after prev ws) s cs = Some m ->
  star_loop p k prev (ws +:+ s) cs = Some m.
Proof.
  intros Hws Hs. revert prev.
  induction ws as [|c ws IH]; intros prev Hk.
  - rewrite str_app_nil_l. rewrite prev_after_nil in Hk.
    destruct s as [|d s]; [done|]. simpl. by rewrite (Hs d eq_refl).
  - simpl in Hws. apply andb_true_iff in Hws as [Hc Hws].
    rewrite str_app_cons. simpl. rewrite Hc.
    rewrite prev_after_cons in Hk. by rewrite (IH Hws _ Hk).
Qed.

(** The label pattern at the start of a text of the shape label, colon,
    whitespace, run, stop: the captured run is exactly the run. *)
Lemma label_pattern_exact (prev : option ascii) (lab ws : string)
    (ch : ascii) (g rest : string) :
  lit_match true "Recommendation" lab = true \/ lit_match true "Exam" lab = true ->
  all_chars isspace ws = true ->
  isspace ch = false ->
  all_chars (cset_matches true stop_set) (String ch g) = true ->
  (forall c, first_char rest = Some c -> cset_matches true stop_set c = false) ->
  exists m, rmatch true label_pattern accept prev
              (lab +:+ ":" +:+ ws +:+ String ch g +:+ rest) [] = Some m
            /\ group m 2 = Some (String ch g).
Proof.
  intros Hlab Hws Hch0 Hg Hrest.
  set (s := lab +:+ ":" +:+ ws +:+ String ch g +:+ rest).
  set (m := [(2%nat, String ch g); (1%nat, lab)]).
  exists m. split; [|reflexivity].
  rewrite label_pattern_eq. cbn [rmatch].
  set (K := fun (prev' : option ascii) (s' : string) (cs' : captures) =>
              rmatch true label_tail accept prev' s' ((1%nat, consumed s s') :: cs')).
  assert (K (prev_after prev lab) (":" +:+ ws +:+ String ch g +:+ rest) []
          = Some m) as HK.
  { unfold K, s. rewrite consumed_app.
    unfold label_tail. rewrite (str_app_cons ":" ""), str_app_nil_l. cbn [rmatch].
    change (chr_eq true ":" ":") with true. cbv iota.
    apply star_loop_run.
    - by rewrite (all_chars_ext _ _ _ space_set_matches).
    - rewrite str_app_cons. intros c [= <-]. by rewrite space_set_matches.
    - rewrite str_app_cons.
      cbn [all_chars] in Hg. apply andb_true_iff in Hg as [Hch Hg'].
      cbn [rmatch]. rewrite Hch.
      apply star_loop_run; [done..|].
      rewrite <- str_app_cons, consumed_app. reflexivity. }
  destruct Hlab as [Hlab | Hlab].
  - assert (rmatch true (escape "Recommendation") K prev s [] = Some m) as ->;
      [|reflexivity].
    apply rmatch_escape. by exists lab, (":" +:+ ws +:+ String ch g +:+ rest).
  - destruct (rmatch true (escape "Recommendation") K prev s []) as [m'|] eqn:H1.
    + exfalso. apply rmatch_escape in H1 as (lab' & suf' & E & Hl' & _).
      destruct lab as [|e lab]; [done|]. destruct lab' as [|r lab']; [done|].
      unfold s in E. rewrite !str_app_cons in E. injection E as <- _.
      cbn [lit_match] in Hlab, Hl'. unfold chr_eq in Hlab, Hl'.
      apply andb_true_iff in Hlab as [He _]. apply andb_true_iff in Hl' as [Hr _].
      apply Ascii.eqb_eq in He, Hr. rewrite <- He in Hr. by vm_compute in Hr.
    + apply rmatch_escape. by exists lab, (":" +:+ ws +:+ String ch g +:+ rest).
Qed.

(** With the first recognizable label at "Exam: foo bar.", that label is
    the one extracted. *)
Lemma exam_foo_bar_first_label (pre suf : string) :
  (forall p q, pre = p +:+ q -> q <> "" ->
     ~ label_at (q +:+ "Exam: foo bar." +:+ suf)) ->
  clean_recommendation (pre +:+ "Exam: foo bar." +:+ suf) = Ok "foo bar".
Proof.
  intros Hfirst. unfold clean_recommendation, search.
  rewrite search_from_skip.
  - destruct (label_pattern_exact (prev_after None pre) "Exam" " " "f" "oo bar"
                ("." +:+ suf)) as (m & Hm & Hg); try done;
      [by right | by intros c [= <-] |].
    assert (search_from true label_pattern (prev_after None pre)
              ("Exam: foo bar." +:+ suf) = Some m) as ->.
    { rewrite <- Hm. rewrite !str_app_cons, !str_app_nil_l.
      cbn [search_from]. rewrite !str_app_cons, !str_app_nil_l in Hm.
      by rewrite Hm. }
    by rewrite Hg.
  - intros p q E Hq.
    destruct (rmatch true label_pattern accept (prev_after None p)
                (q +:+ "Exam: foo bar." +:+ suf) []) as [m|] eqn:Hm; [|done].
    exfalso. apply (Hfirst p q E Hq). exact (label_pattern_at _ _ _ Hm).
Qed.

Lemma lower_app (a b : string) : lower (a +:+ b) = lower a +:+ lower b.
Proof.
  induction a as [|c a IH]; [reflexivity|].
  rewrite str_app_cons. simpl. by rewrite IH.
Qed.

Lemma lower_colon (s : string) :
  any_char (Ascii.eqb ":") (lower s) = any_char (Ascii.eqb ":") s.
Proof.
  induction s as [|c s IH]; [reflexivity|]. simpl. rewrite IH. f_equal.
  by destruct c as [[] [] [] [] [] [] [] []].
Qed.

(** The text before the first colon is determined. *)
Lemma first_colon_unique (a b x y : string) :
  any_char (Ascii.eqb ":") a = false ->
  any_char (Ascii.eqb ":") b = false ->
  a +:+ ":" +:+ x = b +:+ ":" +:+ y -> a = b.
Proof.
  revert b. induction a as [|c a IH]; intros [|c' b] Ha Hb E.
  - reflexivity.
  - rewrite str_app_nil_l, !str_app_cons in E. injection E as <- _.
    by simpl in Hb.
  - rewrite str_app_nil_l, !str_app_cons in E. injection E as -> _.
    by simpl in Ha.
  - rewrite !str_app_cons in E. injection E as -> E.
    simpl in Ha, Hb. apply orb_false_iff in Ha as [_ Ha].
    apply orb_false_iff in Hb as [_ Hb]. by rewrite (IH b Ha Hb E).
Qed.

Lemma app_suffix_eq (a a' b b' : string) :
  a +:+ b = a' +:+ b' -> String.length b = String.length b' ->
  a = a' /\ b = b'.
Proof.
  revert a'. induction a as [|c a IH]; intros [|c' a'] E Hlen.
  - by rewrite !str_app_nil_l in E.
  - apply (f_equal String.length) in E.
    rewrite !str_app_length in E. simpl in E. lia.
  - apply (f_equal String.length) in E.
    rewrite !str_app_length in E. simpl in E. lia.
  - rewrite !str_app_cons in E. injection E as -> E.
    destruct (IH a' E Hlen) as [-> ->]. done.
Qed.

(** A prefix without a colon holds no label start. *)
Lemma no_colon_no_label_before (pre suf : string) :
  any_char (Ascii.eqb ":") pre = false ->
  forall p q, pre = p +:+ q -> q <> "" ->
    ~ label_at (q +:+ "Exam: foo bar." +:+ suf).
Proof.
  intros Hpre p q -> Hq (lab & ws & ch & rest & E & Hlab & _).
  rewrite any_char_app in Hpre. apply orb_false_iff in Hpre as [_ Hq0].
  assert (any_char (Ascii.eqb ":") lab = false) as Hlab0.
  { rewrite <- lower_colon. by destruct Hlab as [-> | ->]. }
  assert (q +:+ "Exam" = lab) as <-.
  { apply (first_colon_unique _ _ (" foo bar." +:+ suf) (ws +:+ String ch rest)).
    - rewrite any_char_app, Hq0. reflexivity.
    - done.
    - rewrite <- E. rewrite !str_app_assoc. reflexivity. }
  rewrite lower_app in Hlab. destruct Hlab as [Hlab | Hlab].
  - destruct (app_suffix_eq (lower q) "recommenda" (lower "Exam") "tion" Hlab eq_refl)
      as [_ Hbad].
    discriminate Hbad.
  - destruct (app_suffix_eq (lower q) "" (lower "Exam") "exam" Hlab eq_refl)
      as [Hq' _].
    destruct q; [done|discriminate Hq'].
Qed.

(** C8 (amended): when the text contains "Exam: foo bar." and no
    recognizable label starts before that occurrence, the result is
    "foo bar"; in particular when no colon occurs before it. *)
Theorem clean_recommendation_exam_foo_bar (pre suf : string) :
  ((forall p q, pre = p +:+ q -> q <> "" ->
      ~ label_at (q +:+ "Exam: foo bar." +:+ suf)) ->
   clean_recommendation (pre +:+ "Exam: foo bar." +:+ suf) = Ok "foo bar")
  /\ (any_char (Ascii.eqb ":") pre = false ->
      clean_recommendation (pre +:+ "Exam: foo bar." +:+ suf) = Ok "foo bar").
Proof.
  split; [apply exam_foo_bar_first_label|].
  intros Hpre. apply exam_foo_bar_first_label.
  by apply no_colon_no_label_before.
Qed.

Lemma clean_recommendation_exam_foo_bar_witness :
  clean_recommendation "Patient stable. Exam: foo bar. Follow up in a week."
  = Ok "foo bar".
Proof.
  apply (proj2 (clean_recommendation_exam_foo_bar
                  "Patient stable. " " Follow up in a week.")).
  reflexivity.
Defined.

(** C8 as stated fails: an earlier label wins. *)
Lemma clean_recommendation_earlier_label_counterexample :
  ~ (forall pre suf : string,
       clean_recommendation (pre +:+ "Exam: foo bar." +:+ suf) = Ok "foo bar").
Proof.
  intros H. specialize (H "Recommendation: rest. " ""). vm_compute in H.
  discriminate H.
Qed.

End Extractor.

(* ===================================================================== *)
(** ** The contrast standardizer and the orchestrator, [process_data] *)
(* ===================================================================== *)

Section Orchestrator.
Import Py.
Import Spec.
Import MedicalDataProcessor.

Lemma mapM_total {A B} (f : A -> result B) (g : A -> B) (l : list A) :
  (forall a, f a = Ok (g a)) -> mapM f l = Ok (List.map g l).
Proof.
  intros Hfg. induction l as [|a l IH]; [reflexivity|].
  simpl. by rewrite Hfg, IH.
Qed.

Lemma map_exam_to_binary_flag_total (v : value) :
  map_exam_to_binary_flag init v = Ok (exam_flag v).
Proof.
  unfold exam_flag. destruct (isna v) eqn:Hna.
  - unfold map_exam_to_binary_flag. by rewrite Hna.
  - by apply map_exam_to_binary_flag_ok.
Qed.

Lemma tokenize_and_flag_organs_total (v : value) :
  tokenize_and_flag_organs init v = Ok (organ_flag v).
Proof.
  unfold organ_flag. destruct (isna v) eqn:Hna.
  - unfold tokenize_and_flag_organs. by rewrite Hna.
  - by apply tokenize_and_flag_organs_ok.
Qed.

Lemma standardize_contrast_cells (self : t) (column : Pd.Series) :
  standardize_contrast self column = List.map (standardize_cell self) column.
Proof.
  unfold standardize_contrast, Pd.map_dict.
  induction column as [|v column IH]; [reflexivity|].
  simpl. rewrite IH. f_equal.
  destruct v as [|k|z]; simpl; try reflexivity.
  by destruct (dict_get (contrast_standardization_map self) k).
Qed.

Lemma contrast_flags_cells (column : Pd.Series) :
  Pd.map_dict VInt contrast_flags column = List.map contrast_code column.
Proof.
  unfold Pd.map_dict. apply map_ext. intros [|k|z]; try reflexivity.
  unfold contrast_code. simpl.
  repeat (destruct (String.eqb k _); [reflexivity|]). reflexivity.
Qed.

(** [process_data] under the configured tables is the pipeline of its four
    column operations. *)
Lemma process_data_pipeline (exam_column organ_column contrast_column : string)
    (df : Pd.DataFrame) :
  process_data init exam_column organ_column contrast_column df
  = pipeline exam_column organ_column contrast_column
      (exam_column +:+ "_flags") (organ_column +:+ "_flags")
      (contrast_column +:+ "_flags")
      (List.map exam_flag) (List.map organ_flag)
      (List.map (standardize_cell init)) (List.map contrast_code) df.
Proof.
  unfold process_data, pipeline, encode_binary_flags_contrast,
    Pd.mbind, Pd.getcol, Pd.setcol, Pd.lift, Pd.apply.
  destruct (df !! exam_column) as [exam|]; [|reflexivity].
  rewrite (mapM_total _ _ exam map_exam_to_binary_flag_total).
  destruct (<[_ := _]> df !! organ_column) as [organ|]; [|reflexivity].
  rewrite (mapM_total _ _ organ tokenize_and_flag_organs_total).
  destruct (<[_ := _]> (<[_ := _]> df) !! contrast_column) as [contrast|];
    [|reflexivity].
  rewrite lookup_insert_eq.
  by rewrite standardize_contrast_cells, contrast_flags_cells.
Qed.

(** C1 (amended): the contrast encoder writes, for every cell of the
    column, the code of the dict literal: "with iv contrast" is 1, "without
    iv contrast" is 0, "with or without iv contrast" is 2, and anything
    else, null included, is null. *)
Theorem encode_binary_flags_contrast_codes (column : string) (df : Pd.DataFrame) :
  encode_binary_flags_contrast column df
  = match df !! column with
    | Some col => (<[column +:+ "_flags" := List.map contrast_code col]> df, Ok tt)
    | None => (df, Raise (KeyError column))
    end
  /\ contrast_code (VStr "with iv contrast") = VInt 1
  /\ contrast_code (VStr "without iv contrast") = VInt 0
  /\ contrast_code (VStr "with or without iv contrast") = VInt 2
  /\ contrast_code VNone = VNone
  /\ forall v : value,
       v <> VStr "with iv contrast" -> v <> VStr "without iv contrast" ->
       v <> VStr "with or without iv contrast" ->
       contrast_code v = VNone.
Proof.
  split; [|repeat split; try reflexivity].
  - unfold encode_binary_flags_contrast, Pd.mbind, Pd.getcol, Pd.setcol.
    destruct (df !! column) as [col|]; [|reflexivity].
    by rewrite contrast_flags_cells.
  - intros [|k|z] H1 H2 H3; try reflexivity. unfold contrast_code.
    destruct (String.eqb_spec k "with iv contrast"); [congruence|].
    destruct (String.eqb_spec k "without iv contrast"); [congruence|].
    destruct (String.eqb_spec k "with or without iv contrast"); [congruence|].
    reflexivity.
Qed.

Lemma encode_binary_flags_contrast_codes_witness :
  contrast_code (VStr "unrecognized phrase") = VNone.
Proof.
  apply (encode_binary_flags_contrast_codes "contrast" ∅); discriminate.
Defined.

(** C1 as stated fails: the codes of "with iv contrast" and "without iv
    contrast" are 1 and 0, not 0 and 1. *)
Lemma encode_contrast_swapped_counterexample :
  ~ (forall phrase : value,
       (encode_binary_flags_contrast "contrast" {[ "contrast" := [phrase] ]}).1
         !! "contrast_flags"
       = Some [spec_encode_contrast phrase]).
Proof.
  intros H. specialize (H (VStr "with iv contrast")).
  vm_compute in H. discriminate H.
Qed.




End Orchestrator.

(* ===================================================================== *)
(** ** Running the pipeline on its own output *)
(* ===================================================================== *)

Section Rerun.
Import Py.
Import Spec.

(** Three source fields, the three flag fields written for them, and the
    four column operations. *)
Variables (e o c ef of' cf : string).
Variables (E O S C : list value -> list value).

(** Standardizing twice is standardizing once. *)
Hypothesis S_idem : forall x, S (S x) = S x.

(** No flag field is also a source field. *)
Hypothesis e_ef : e <> ef.
Hypothesis e_of : e <> of'.
Hypothesis e_cf : e <> cf.
Hypothesis o_ef : o <> ef.
Hypothesis o_of : o <> of'.
Hypothesis o_cf : o <> cf.
Hypothesis c_ef : c <> ef.
Hypothesis c_of : c <> of'.
Hypothesis c_cf : c <> cf.

(** Two flag fields coincide exactly when their source fields do. *)
Hypothesis ef_of : ef = of' <-> e = o.
Hypothesis ef_cf : ef = cf <-> e = c.
Hypothesis of_cf : of' = cf <-> o = c.

Ltac lookups :=
  repeat first
    [ rewrite lookup_insert_eq
    | rewrite lookup_insert_ne by congruence ].

Ltac flag_names :=
  repeat match goal with
  | H : ?a = ?b <-> ?x = ?x |- _ =>
      let E := fresh in
      assert (a = b) as E by (apply H; reflexivity); clear H
  | H : ?a = ?b <-> ?x = ?y, N : ?x <> ?y |- _ =>
      let E := fresh in
      assert (a <> b) as E by (intros ?; apply N; by apply H); clear H
  | H : ?a = ?b <-> ?x = ?y, N : ?y <> ?x |- _ =>
      let E := fresh in
      assert (a <> b) as E by (intros ?; apply N; symmetry; by apply H); clear H
  end.

Ltac same_frame :=
  apply map_eq; intros k;
  repeat (rewrite lookup_insert; case_decide; subst; try done);
  try congruence.

Lemma pipeline_rerun (df : gmap string (list value)) :
  pipeline e o c ef of' cf E O S C (pipeline e o c ef of' cf E O S C df).1
  = pipeline e o c ef of' cf E O S C df.
Proof.
  unfold pipeline at 2 3.
  destruct (df !! e) as [exam|] eqn:He; simpl.
  2:{ unfold pipeline. by rewrite He. }
  rewrite (lookup_insert_ne df ef o) by congruence.
  destruct (df !! o) as [organ|] eqn:Ho; simpl.
  2:{ unfold pipeline. lookups. rewrite He. lookups. rewrite Ho.
      by rewrite insert_insert_eq. }
  rewrite !(lookup_insert_ne _ _ c) by congruence.
  destruct (df !! c) as [contrast|] eqn:Hc; simpl.
  2:{ unfold pipeline. lookups. rewrite He. lookups. rewrite Ho. lookups.
      rewrite Hc. f_equal. same_frame. }
  unfold pipeline.
  destruct (decide (c = e)) as [Hce|Hce]; destruct (decide (c = o)) as [Hco|Hco];
    subst; simplify_eq; lookups; rewrite ?He, ?Ho, ?Hc; lookups;
    rewrite ?He, ?Ho, ?Hc; lookups; rewrite ?He, ?Ho, ?Hc; lookups;
    rewrite ?S_idem.
  all: flag_names; f_equal; same_frame.
Qed.

End Rerun.

Section RerunConfigured.
Import Py.
Import Spec.
Import MedicalDataProcessor.

Lemma str_app_inv_r (s1 s2 t : string) : s1 +:+ t = s2 +:+ t -> s1 = s2.
Proof.
  revert s2. induction s1 as [|c s1 IH]; intros [|c' s2] H.
  - reflexivity.
  - apply (f_equal String.length) in H.
    rewrite !str_app_length in H. simpl in H. lia.
  - apply (f_equal String.length) in H.
    rewrite !str_app_length in H. simpl in H. lia.
  - rewrite !str_app_cons in H. injection H as -> H. by rewrite (IH _ H).
Qed.

Lemma flag_field_fresh (s : string) : s <> s +:+ "_flags".
Proof.
  intros H. apply (f_equal String.length) in H.
  rewrite str_app_length in H. simpl in H. lia.
Qed.

Lemma flag_field_inj (s1 s2 : string) :
  s1 +:+ "_flags" = s2 +:+ "_flags" <-> s1 = s2.
Proof. split; [apply str_app_inv_r | by intros ->]. Qed.

(** The canonical phrases are not themselves keys of the standardization
    map. *)
Lemma standardize_cell_idem (v : value) :
  standardize_cell init (standardize_cell init v) = standardize_cell init v.
Proof.
  destruct v as [|k|z]; try reflexivity.
  destruct (dict_get (contrast_standardization_map init) k) as [canonical|] eqn:Hk.
  - unfold standardize_cell at 2 3. rewrite Hk.
    cbn [contrast_standardization_map init dict_get] in Hk.
    repeat (destruct (String.eqb k _); [by injection Hk as <-|]).
    discriminate Hk.
  - unfold standardize_cell at 2 3. rewrite Hk.
    unfold standardize_cell. by rewrite Hk.
Qed.

Lemma standardize_contrast_idem (column : Pd.Series) :
  standardize_contrast init (standardize_contrast init column)
  = standardize_contrast init column.
Proof.
  rewrite !standardize_contrast_cells, map_map.
  apply map_ext. intros v. apply standardize_cell_idem.
Qed.

(** C4 (amended): when no flag field name is also the name of one of the
    three source fields, re-standardizing standardized contrast text leaves
    it unchanged, and running [process_data] again on the frame it left,
    with the same field names, leaves that frame as it is and ends the same
    way: the exam, organ and contrast flag fields and the contrast field
    keep the values of the first run. *)
Theorem process_data_rerun (exam_column organ_column contrast_column : string)
    (df : Pd.DataFrame) :
  exam_column <> organ_column +:+ "_flags" ->
  exam_column <> contrast_column +:+ "_flags" ->
  organ_column <> exam_column +:+ "_flags" ->
  organ_column <> contrast_column +:+ "_flags" ->
  contrast_column <> exam_column +:+ "_flags" ->
  contrast_column <> organ_column +:+ "_flags" ->
  let run := process_data init exam_column organ_column contrast_column in
  (forall column : Pd.Series,
     standardize_contrast init (standardize_contrast init column)
     = standardize_contrast init column)
  /\ run (run df).1 = run df
  /\ forall field : string,
       field ∈ [exam_column +:+ "_flags"; organ_column +:+ "_flags";
                contrast_column; contrast_column +:+ "_flags"] ->
       (run (run df).1).1 !! field = (run df).1 !! field.
Proof.
  intros Heo Hec Hoe Hoc Hce Hco run.
  assert (run (run df).1 = run df) as Hrun.
  { unfold run. rewrite !process_data_pipeline.
    apply pipeline_rerun;
      auto using flag_field_fresh, flag_field_inj.
    intros x. rewrite map_map. apply map_ext, standardize_cell_idem. }
  split; [apply standardize_contrast_idem|]. split; [done|].
  intros field _. by rewrite Hrun.
Qed.

Lemma process_data_rerun_witness :
  let run := process_data init "exam" "organ" "contrast" in
  let df : Pd.DataFrame :=
    {[ "exam" := [VStr "CT scan"; VNone];
       "organ" := [VStr "kidney stone"; VStr "Head"];
       "contrast" := [VStr " with iv contrast"; VStr "none"] ]} in
  run (run df).1 = run df.
Proof.
  intros run df.
  apply (process_data_rerun "exam" "organ" "contrast" df); discriminate.
Defined.

(** C4 as stated fails when a source field is named like a flag field:
    with the exam field called "contrast_flags", the first run overwrites it
    with the contrast codes, and the second run computes the exam flags
    from those. *)
Lemma process_data_rerun_collision_counterexample :
  ~ (forall (df : Pd.DataFrame) (e o c : string),
       let run := process_data init e o c in
       (run df).2 = Ok tt ->
       (run (run df).1).1 !! (e +:+ "_flags") = (run df).1 !! (e +:+ "_flags")).
Proof.
  intros H.
  specialize (H {[ "contrast_flags" := [VStr "ct"];
                   "organ" := [VStr "kidney"];
                   "contrast" := [VStr "with iv contrast"] ]}
                "contrast_flags" "organ" "contrast").
  vm_compute in H. specialize (H eq_refl). discriminate H.
Qed.

End RerunConfigured.

(* ===================================================================== *)
(** ** More on the referral segmenter *)
(* ===================================================================== *)

Section SegmenterParts.
Import Py.
Import Spec.
Import MedicalDataProcessor.
Import Notions.

Lemma first_index_app_hit (p : string -> bool) (pre : list string) (x : string)
    (post : list string) :
  Forall (fun e => p e = false) pre -> p x = true ->
  first_index p (pre ++ x :: post) = Some (length pre).
Proof.
  intros Hpre Hx. induction Hpre as [|y pre Hy _ IH]; simpl.
  - by rewrite Hx.
  - by rewrite Hy, IH.
Qed.

Lemma join_cons (sep x : string) (l : list string) :
  l <> [] -> join sep (x :: l) = x +:+ sep +:+ join sep l.
Proof. by destruct l. Qed.

Lemma join_split (s : string) : join " " (split " " s) = s.
Proof.
  induction s as [|c s IH]; [reflexivity|].
  cbn [split]. pose proof (split_nonempty " " s) as Hne.
  destruct (Ascii.eqb_spec c " ") as [->|Hc].
  - rewrite join_cons by done. by rewrite IH.
  - destruct (split " " s) as [|t ts]; [done|].
    destruct ts as [|t' ts].
    + simpl in *. by rewrite IH.
    + rewrite join_cons in IH by done. rewrite join_cons by done.
      by rewrite str_app_cons, IH.
Qed.

Lemma elements_of_clean (row : string) :
  Forall (fun t => clean_token t = true) (split " " row) ->
  elements_of row = split " " row.
Proof.
  unfold elements_of. intros H. induction H as [|t ts Ht _ IH]; [reflexivity|].
  simpl. rewrite IH. f_equal. by apply String.eqb_eq.
Qed.

(** X1: when some token of the phrase is a CT type, the exam is the tokens
    up to and including the first CT-type token, joined by single spaces,
    and exactly the tokens after it are scanned for the first contrast
    keyword, which splits them into body part and contrast; a contrast
    keyword standing before the CT type is part of the exam.  The method of
    [DataCleaner] gives the same result. *)
Theorem format_referral_ct_type (self : t) (row : string)
    (pre : list string) (ct : string) (post : list string) :
  elements_of row = pre ++ ct :: post ->
  Forall (fun e => str_in e (ct_types self) = false) pre ->
  str_in ct (ct_types self) = true ->
  exists body contrast,
    format_referral self (VStr row) = (Some (join " " (pre ++ [ct])), body, contrast)
    /\ Spec.keyword_split (keywords self) post body contrast
    /\ DataCleaner.format_referral
         {| DataCleaner.keywords := keywords self;
            DataCleaner.ct_types := ct_types self |} (VStr row)
       = format_referral self (VStr row).
Proof.
  intros He Hpre Hct.
  destruct (keyword_split_drop self post) as (body & contrast & Heq & Hsplit).
  exists body, contrast. split; [|split; [done|reflexivity]].
  unfold format_referral, format_referral_try.
  rewrite He, (first_index_app_hit _ pre ct post Hpre Hct). cbn [bind].
  replace (take (length pre + 1) (pre ++ ct :: post)) with (pre ++ [ct]).
  2:{ rewrite take_app_ge by lia.
      replace (length pre + 1 - length pre) with 1 by lia.
      simpl. by rewrite take_0. }
  replace (drop (length pre + 1) (pre ++ ct :: post)) with post.
  2:{ rewrite drop_app_ge by lia.
      by replace (length pre + 1 - length pre) with 1 by lia. }
  destruct (first_index _ post); by inversion Heq.
Qed.

Lemma format_referral_ct_type_witness :
  exists body contrast,
    format_referral init (VStr "CT angiography chest, w contrast")
      = (Some "CT angiography", body, contrast)
    /\ Spec.keyword_split (keywords init) ["chest"; "w"; "contrast"] body contrast
    /\ DataCleaner.format_referral
         {| DataCleaner.keywords := keywords init;
            DataCleaner.ct_types := ct_types init |}
         (VStr "CT angiography chest, w contrast")
       = format_referral init (VStr "CT angiography chest, w contrast").
Proof.
  apply (format_referral_ct_type init "CT angiography chest, w contrast"
           ["CT"] "angiography" ["chest"; "w"; "contrast"]).
  - reflexivity.
  - by repeat constructor.
  - reflexivity.
Defined.

(** The three runs of tokens behind the three fields. *)
Lemma format_referral_runs (self : t) (row : string) :
  exists a b c : list string,
    elements_of row = a ++ b ++ c
    /\ a <> []
    /\ format_referral self (VStr row)
       = (Some (join " " a), Some (join " " b),
          match c with [] => None | _ => Some (join " " c) end)
    /\ Forall (fun e => str_in e (keywords self) = false) b
    /\ (forall kw rest, c = kw :: rest -> str_in kw (keywords self) = true).
Proof.
  pose proof (elements_of_nonempty row) as Hne.
  assert (exists a others, elements_of row = a ++ others /\ a <> []
            /\ format_referral self (VStr row)
               = match first_index (fun element => str_in element (keywords self))
                         others with
                 | Some k => (Some (join " " a), Some (join " " (take k others)),
                              Some (join " " (drop k others)))
                 | None => (Some (join " " a), Some (join " " others), None)
                 end) as (a & others & He & Ha & Hres).
  { unfold format_referral, format_referral_try.
    destruct (first_index _ (elements_of row)) as [i|] eqn:Hi; cbn [bind].
    - exists (take (i + 1) (elements_of row)), (drop (i + 1) (elements_of row)).
      split; [by rewrite take_drop|]. split.
      + destruct (elements_of row); [done|]. by rewrite Nat.add_1_r.
      + by destruct (first_index _ (drop (i + 1) (elements_of row))).
    - destruct (elements_of row) as [|first rest]; [done|].
      exists [first], rest. split; [done|]. split; [done|].
      simpl. rewrite drop_0.
      by destruct (first_index _ rest). }
  destruct (first_index _ others) as [k|] eqn:Hk.
  - apply first_index_some in Hk as (kw & E1 & E2 & Hkw & Hall).
    exists a, (take k others), (drop k others).
    rewrite take_drop. split; [done|]. split; [done|]. split.
    { rewrite Hres, E2. done. }
    split; [done|].
    intros kw' rest' E. rewrite E2 in E. by injection E as <- _.
  - apply first_index_none in Hk.
    exists a, others, []. rewrite app_nil_r. by repeat split.
Qed.

(** X2: [format_referral] on a string drops and reorders no token.  The
    token list is the concatenation of three runs: a non-empty exam run, a
    body-part run that holds no contrast keyword, and a contrast run that is
    empty (the contrast is then null) or starts with a contrast keyword;
    each field of the result is its run joined by single spaces.  When the
    split leaves tokens that hold no comma and nothing to strip, joining the
    three runs gives the phrase back. *)
Theorem format_referral_partition (self : t) (row : string) :
  exists a b c : list string,
    elements_of row = a ++ b ++ c
    /\ a <> []
    /\ format_referral self (VStr row)
       = (Some (join " " a), Some (join " " b),
          match c with [] => None | _ => Some (join " " c) end)
    /\ Forall (fun e => str_in e (keywords self) = false) b
    /\ (forall kw rest, c = kw :: rest -> str_in kw (keywords self) = true)
    /\ (Forall (fun t => clean_token t = true) (split " " row) ->
        join " " (a ++ b ++ c) = row).
Proof.
  destruct (format_referral_runs self row) as (a & b & c & He & Ha & Hres & Hb & Hc).
  exists a, b, c. repeat (split; [done|]).
  intros Hclean. rewrite <- He, (elements_of_clean _ Hclean). apply join_split.
Qed.

Lemma replace_comma_free (s : string) :
  any_char (Ascii.eqb ",") (replace "," "" s) = false.
Proof.
  induction s as [|ch s IH]; [done|]. cbn [replace].
  destruct (Ascii.eqb ch ",") eqn:Hc; [by rewrite str_app_nil_l|].
  cbn [any_char]. by rewrite Ascii.eqb_sym, Hc.
Qed.

Lemma elements_comma_free (row : string) :
  Forall (fun t => any_char (Ascii.eqb ",") t = false) (elements_of row).
Proof.
  unfold elements_of. apply Forall_forall. intros t Hin.
  apply list_elem_of_In, in_map_iff in Hin as (s & <- & _).
  apply replace_comma_free.
Qed.

Lemma join_comma_free (l : list string) :
  Forall (fun t => any_char (Ascii.eqb ",") t = false) l ->
  any_char (Ascii.eqb ",") (join " " l) = false.
Proof.
  induction 1 as [|t l Ht Hl IH]; [done|].
  destruct l as [|t' l]; [done|].
  rewrite join_cons by done. by rewrite !any_char_app, Ht, IH.
Qed.

(** X18: no field that [format_referral] returns for a string holds a
    comma: the commas are removed from every token, and the fields are
    tokens joined by single spaces. *)
Theorem format_referral_no_comma (self : t) (row : string) :
  exists exam body contrast,
    format_referral self (VStr row) = (Some exam, Some body, contrast)
    /\ any_char (Ascii.eqb ",") exam = false
    /\ any_char (Ascii.eqb ",") body = false
    /\ (forall s, contrast = Some s -> any_char (Ascii.eqb ",") s = false).
Proof.
  destruct (format_referral_runs self row) as (a & b & c & He & _ & -> & _).
  pose proof (elements_comma_free row) as Hfree.
  rewrite He, !Forall_app in Hfree. destruct Hfree as (Ha & Hb & Hc).
  eexists _, _, _. split; [reflexivity|].
  split; [by apply join_comma_free|]. split; [by apply join_comma_free|].
  intros s Hs. destruct c as [|kw rest]; [done|]. injection Hs as <-.
  exact (join_comma_free (kw :: rest) Hc).
Qed.

End SegmenterParts.

(* ===================================================================== *)
(** ** More on the recommendation extractor *)
(* ===================================================================== *)

Section ExtractorResult.
Import Py.
Import Re.
Import Spec.
Import MedicalDataProcessor.

Lemma search_from_result (ic : bool) (r : regex) (prev : option ascii)
    (s : string) (m : captures) :
  search_from ic r prev s = Some m ->
  exists pre suf, s = pre +:+ suf
    /\ rmatch ic r accept (prev_after prev pre) suf [] = Some m
    /\ forall p q, pre = p +:+ q -> q <> "" ->
         rmatch ic r accept (prev_after prev p) (q +:+ suf) [] = None.
Proof.
  revert prev. induction s as [|c s IH]; intros prev; simpl.
  - destruct (rmatch ic r accept prev "" []) eqn:Hm; [|done].
    intros [= <-]. exists "", "". repeat split; [done|].
    intros p q E Hq. destruct p; [|done]. by rewrite str_app_nil_l in E; subst q.
  - destruct (rmatch ic r accept prev (String c s) []) eqn:Hm.
    + intros [= <-]. exists "", (String c s). repeat split; [done|].
      intros p q E Hq. destruct p; [|done]. by rewrite str_app_nil_l in E; subst q.
    + intros H. destruct (IH _ H) as (pre & suf & -> & Hr & Hno).
      exists (String c pre), suf. rewrite str_app_cons, prev_after_cons.
      repeat split; [done|].
      intros p q E Hq. destruct p as [|c' p].
      * rewrite str_app_nil_l in E. subst q.
        by rewrite prev_after_nil, str_app_cons.
      * rewrite str_app_cons in E. injection E as <- ->.
        rewrite prev_after_cons. by apply Hno.
Qed.

Lemma search_from_here (ic : bool) (r : regex) (prev : option ascii)
    (s : string) (m : captures) :
  rmatch ic r accept prev s [] = Some m -> search_from ic r prev s = Some m.
Proof. intros H. destruct s; simpl; by rewrite H. Qed.

(** What a match of the tail captures. *)
Lemma label_tail_result (prev : option ascii) (s : string) (cs m : captures) :
  rmatch true label_tail accept prev s cs = Some m ->
  exists ws g rest,
    s = ":" +:+ ws +:+ g +:+ rest
    /\ all_chars isspace ws = true
    /\ g <> ""
    /\ all_chars (cset_matches true stop_set) g = true
    /\ m = (2%nat, g) :: cs.
Proof.
  unfold label_tail. cbn [rmatch].
  destruct s as [|d s]; [done|].
  destruct (chr_eq true ":" d) eqn:Hd; [|done].
  apply Ascii.eqb_eq, lower_char_colon in Hd as ->.
  intros H. apply star_loop_some in H as (ws & suf & -> & Hws & H).
  rewrite (all_chars_ext _ _ _ space_set_matches) in Hws.
  destruct suf as [|ch suf]; [done|].
  destruct (cset_matches true stop_set ch) eqn:Hch; [|done].
  apply star_loop_some in H as (g & rest & -> & Hg & H).
  unfold accept in H. injection H as <-.
  exists ws, (String ch g), rest.
  rewrite <- (str_app_cons ch g rest), consumed_app.
  rewrite (str_app_cons ":" ""), str_app_nil_l.
  repeat split; try done. cbn [all_chars]. by rewrite Hch, Hg.
Qed.

(** What a match of the label pattern is made of. *)
Lemma label_pattern_result (prev : option ascii) (s : string) (m : captures) :
  rmatch true label_pattern accept prev s [] = Some m ->
  exists lab ws g rest,
    s = lab +:+ ":" +:+ ws +:+ g +:+ rest
    /\ (lower lab = "recommendation" \/ lower lab = "exam")
    /\ all_chars isspace ws = true
    /\ g <> ""
    /\ all_chars (cset_matches true stop_set) g = true
    /\ m = [(2%nat, g); (1%nat, lab)].
Proof.
  rewrite label_pattern_eq. cbn [rmatch].
  set (K := fun (prev' : option ascii) (s' : string) (cs' : captures) =>
              rmatch true label_tail accept prev' s' ((1%nat, consumed s s') :: cs')).
  intros H.
  assert (exists lit lab suf, (lit = "Recommendation" \/ lit = "Exam")
            /\ s = lab +:+ suf /\ lit_match true lit lab = true
            /\ K (prev_after prev lab) suf [] = Some m)
    as (lit & lab & suf & Hlit & -> & Hlab & HK).
  { destruct (rmatch true (escape "Recommendation") K prev s []) eqn:H1.
    - injection H as <-.
      apply rmatch_escape in H1 as (lab & suf & E & Hl & HK). eauto 10.
    - apply rmatch_escape in H as (lab & suf & E & Hl & HK). eauto 10. }
  unfold K in HK. rewrite consumed_app in HK.
  apply label_tail_result in HK as (ws & g & rest & -> & Hws & Hg0 & Hg & ->).
  exists lab, ws, g, rest. repeat split; auto.
  apply lit_match_lower in Hlab. rewrite Hlab. by destruct Hlit as [-> | ->]; [left|right].
Qed.

Lemma lstrip_spec (s : string) :
  exists ws, s = ws +:+ lstrip s
    /\ all_chars isspace ws = true
    /\ forall c, first_char (lstrip s) = Some c -> isspace c = false.
Proof.
  induction s as [|c s (ws & E & Hws & Hfirst)]; [by exists ""|].
  simpl. destruct (isspace c) eqn:Hc.
  - exists (String c ws). rewrite str_app_cons, <- E. simpl. by rewrite Hc, Hws.
  - exists "". split; [done|]. split; [done|]. by intros ? [= <-].
Qed.

(** [strip] keeps a piece of the string that does not begin with
    whitespace. *)
Lemma strip_spec (s : string) :
  exists l r, s = l +:+ strip s +:+ r
    /\ forall c, first_char (strip s) = Some c -> isspace c = false.
Proof.
  destruct (lstrip_spec s) as (l & El & _ & Hfirst).
  destruct (rstrip_by_spec isspace (lstrip s)) as (r & Er & _ & _).
  exists l, r. unfold strip. split; [by rewrite <- Er|].
  intros c Hc. apply Hfirst. rewrite Er.
  destruct (rstrip_by isspace (lstrip s)); [done|]. by rewrite str_app_cons.
Qed.

Lemma any_char_last (q : ascii -> bool) (s : string) (c : ascii) :
  any_char q s = false -> last_char s = Some c -> q c = false.
Proof.
  induction s as [|d s IH]; [done|]. simpl.
  intros H. apply orb_false_iff in H as [Hd Hs].
  destruct s as [|e s]; [by intros [= <-]|]. by apply IH.
Qed.

Lemma all_chars_none (p q : ascii -> bool) (s : string) :
  (forall c, p c = true -> q c = false) ->
  all_chars p s = true -> any_char q s = false.
Proof.
  intros Hpq. induction s as [|c s IH]; [done|]. simpl.
  intros H. apply andb_true_iff in H as [Hc Hs].
  by rewrite (Hpq c Hc), IH.
Qed.

Lemma replace_newline (s : string) :
  any_char (Ascii.eqb newline) (replace newline " " s) = false.
Proof.
  induction s as [|c s IH]; [done|]. cbn [replace].
  destruct (Ascii.eqb c newline) eqn:Hc.
  - by rewrite str_app_cons, str_app_nil_l.
  - cbn [any_char]. by rewrite Ascii.eqb_sym, Hc.
Qed.

(** X3: [clean_recommendation] never raises on a string, in either class,
    and whichever branch it takes its result holds no newline, does not end
    with a period and does not begin with whitespace. *)
Theorem clean_recommendation_result (text : string) :
  exists r, clean_recommendation text = Ok r
    /\ DataCleaner.clean_recommendation text = Ok r
    /\ any_char (Ascii.eqb newline) r = false
    /\ last_char r <> Some "."%char
    /\ (forall c, first_char r = Some c -> isspace c = false).
Proof.
  unfold DataCleaner.clean_recommendation, clean_recommendation.
  change DataCleaner.label_pattern with label_pattern.
  change DataCleaner.newline with newline.
  destruct (search true label_pattern text) as [m|] eqn:Hs.
  - apply search_from_result in Hs as (pre & suf & _ & Hm & _).
    apply label_pattern_result in Hm as (lab & ws & g & rest & _ & _ & _ & _ & Hg & ->).
    cbn [group Nat.eqb]. exists (strip g). split; [done|]. split; [done|].
    destruct (strip_spec g) as (l & r & E & Hfirst).
    rewrite E, !all_chars_app in Hg.
    apply andb_true_iff in Hg as [_ Hg]. apply andb_true_iff in Hg as [Hg _].
    split; [|split; [|done]].
    + revert Hg. apply all_chars_none. intros c Hc.
      apply stop_set_matches in Hc as [_ Hc]. by apply Ascii.eqb_neq.
    + intros Hl.
      assert (any_char (Ascii.eqb ".") (strip g) = false) as Hdot.
      { revert Hg. apply all_chars_none. intros c Hc.
        apply stop_set_matches in Hc as [Hc _]. by apply Ascii.eqb_neq. }
      pose proof (any_char_last _ _ _ Hdot Hl) as Hbad. discriminate Hbad.
  - set (flat := replace newline " " text).
    exists (rstrip "." (strip flat)). split; [done|]. split; [done|].
    destruct (strip_spec flat) as (l & r & E & Hfirst).
    destruct (rstrip_by_spec (Ascii.eqb ".") (strip flat)) as (dots & Ed & _ & Hlast).
    fold (rstrip "." (strip flat)) in Ed, Hlast.
    split; [|split].
    + pose proof (replace_newline text) as Hnl. fold flat in Hnl.
      rewrite E, Ed, !any_char_app in Hnl.
      apply orb_false_iff in Hnl as [_ Hnl]. apply orb_false_iff in Hnl as [Hnl _].
      by apply orb_false_iff in Hnl as [Hnl _].
    + intros Hl. by specialize (Hlast _ Hl).
    + intros c Hc. apply Hfirst. rewrite Ed.
      destruct (rstrip "." (strip flat)); [done|]. by rewrite str_app_cons.
Qed.

End ExtractorResult.

Section ExtractorLabel.
Import Py.
Import Re.
Import Spec.
Import MedicalDataProcessor.
Import Notions.

Lemma stop_set_stops (c : ascii) : cset_matches true stop_set c = negb (stops c).
Proof.
  unfold stops. simpl. rewrite orb_false_r. unfold chr_eq.
  by destruct c as [[] [] [] [] [] [] [] []].
Qed.

Lemma all_chars_negb (p : ascii -> bool) (s : string) :
  all_chars (fun c => negb (p c)) s = negb (any_char p s).
Proof.
  induction s as [|c s IH]; [done|]. simpl. rewrite IH. by destruct (p c).
Qed.

Lemma stop_set_run (s : string) :
  all_chars (cset_matches true stop_set) s = negb (any_char stops s).
Proof.
  rewrite (all_chars_ext _ _ _ stop_set_stops). apply all_chars_negb.
Qed.

Lemma lower_length (s : string) : String.length (lower s) = String.length s.
Proof. induction s as [|c s IH]; [done|]. simpl. by rewrite IH. Qed.

(** A prefix without a colon holds no label start before a label. *)
Lemma no_colon_no_earlier_label (pre lab tail : string) :
  any_char (Ascii.eqb ":") pre = false ->
  lower lab = "recommendation" \/ lower lab = "exam" ->
  forall p q, pre = p +:+ q -> q <> "" ->
    ~ label_at (q +:+ lab +:+ ":" +:+ tail).
Proof.
  intros Hpre Hlab p q -> Hq (lab' & ws & ch & rest & E & Hlab' & _).
  rewrite any_char_app in Hpre. apply orb_false_iff in Hpre as [_ Hq0].
  assert (any_char (Ascii.eqb ":") lab = false) as Hlab0.
  { rewrite <- lower_colon. by destruct Hlab as [-> | ->]. }
  assert (any_char (Ascii.eqb ":") lab' = false) as Hlab0'.
  { rewrite <- lower_colon. by destruct Hlab' as [-> | ->]. }
  assert (q +:+ lab = lab') as <-.
  { apply (first_colon_unique _ _ tail (ws +:+ String ch rest)).
    - by rewrite any_char_app, Hq0.
    - done.
    - rewrite <- E. by rewrite !str_app_assoc. }
  assert (String.length q <> 0) as Hlen by (by destruct q).
  rewrite lower_app in Hlab'.
  destruct Hlab as [Hl | Hl]; rewrite Hl in Hlab'; destruct Hlab' as [Hbad | Hbad].
  - apply (f_equal String.length) in Hbad.
    rewrite str_app_length, lower_length in Hbad. simpl in Hbad. lia.
  - apply (f_equal String.length) in Hbad.
    rewrite str_app_length, lower_length in Hbad. simpl in Hbad. lia.
  - by destruct (app_suffix_eq (lower q) "recommenda" "exam" "tion" Hbad eq_refl).
  - apply (f_equal String.length) in Hbad.
    rewrite str_app_length, lower_length in Hbad. simpl in Hbad. lia.
Qed.

Lemma first_label_extracted (pre lab ws : string) (ch : ascii) (g rest : string) :
  lower lab = "recommendation" \/ lower lab = "exam" ->
  all_chars isspace ws = true ->
  isspace ch = false ->
  any_char stops (String ch g) = false ->
  (forall c, first_char rest = Some c -> stops c = true) ->
  (forall p q, pre = p +:+ q -> q <> "" ->
     ~ label_at (q +:+ lab +:+ ":" +:+ ws +:+ String ch g +:+ rest)) ->
  clean_recommendation (pre +:+ lab +:+ ":" +:+ ws +:+ String ch g +:+ rest)
  = Ok (strip (String ch g)).
Proof.
  intros Hlab Hws Hch Hg Hrest Hfirst. unfold clean_recommendation, search.
  rewrite search_from_skip.
  - destruct (label_pattern_exact (prev_after None pre) lab ws ch g rest)
      as (m & Hm & Hgrp); try done.
    + destruct Hlab as [Hl | Hl]; [left | right]; by apply lit_match_lower.
    + by rewrite stop_set_run, Hg.
    + intros c Hc. by rewrite stop_set_stops, (Hrest c Hc).
    + by rewrite (search_from_here _ _ _ _ _ Hm), Hgrp.
  - intros p q E Hq.
    destruct (rmatch true label_pattern accept (prev_after None p)
                (q +:+ lab +:+ ":" +:+ ws +:+ String ch g +:+ rest) [])
      as [m|] eqn:Hm; [|done].
    exfalso. apply (Hfirst p q E Hq). exact (label_pattern_at _ _ _ Hm).
Qed.

(** X4: the text has a label ("Recommendation" or "Exam" in any letter
    case), a colon, whitespace, and then a run that starts with a character
    that is not whitespace, holds no period and no newline, and is ended by
    a period, a newline or the end of the text.  When no recognizable label
    starts before that label, the result is the run stripped of surrounding
    whitespace; this is so in particular when no colon occurs before the
    label.  Both classes agree. *)
Theorem clean_recommendation_first_label
    (pre lab ws : string) (ch : ascii) (g rest : string) :
  lower lab = "recommendation" \/ lower lab = "exam" ->
  all_chars isspace ws = true ->
  isspace ch = false ->
  any_char stops (String ch g) = false ->
  (forall c, first_char rest = Some c -> stops c = true) ->
  let text := pre +:+ lab +:+ ":" +:+ ws +:+ String ch g +:+ rest in
  ((forall p q, pre = p +:+ q -> q <> "" ->
      ~ label_at (q +:+ lab +:+ ":" +:+ ws +:+ String ch g +:+ rest)) ->
   clean_recommendation text = Ok (strip (String ch g)))
  /\ (any_char (Ascii.eqb ":") pre = false ->
      clean_recommendation text = Ok (strip (String ch g)))
  /\ DataCleaner.clean_recommendation text = clean_recommendation text.
Proof.
  intros Hlab Hws Hch Hg Hrest text. split; [|split; [|reflexivity]].
  - by apply first_label_extracted.
  - intros Hpre. apply first_label_extracted; try done.
    by apply no_colon_no_earlier_label.
Qed.

Lemma clean_recommendation_first_label_witness :
  clean_recommendation
    "Findings normal. RECOMMENDATION:  Chest CT in 3 months . Thanks"
  = Ok "Chest CT in 3 months".
Proof.
  refine (proj1 (proj2 (clean_recommendation_first_label
            "Findings normal. " "RECOMMENDATION" "  " "C" "hest CT in 3 months "
            ". Thanks" _ _ _ _ _)) _); try reflexivity.
  - by left.
  - by intros c [= <-].
Defined.

(** Greedy repetition finds a match whenever some run does. *)
Lemma star_loop_complete (p : ascii -> bool) (k : cont) (prev : option ascii)
    (ws suf : string) (cs : captures) :
  all_chars p ws = true ->
  is_Some (k (prev_after prev ws) suf cs) ->
  is_Some (star_loop p k prev (ws +:+ suf) cs).
Proof.
  intros Hws. revert prev. induction ws as [|c ws IH]; intros prev Hk.
  - rewrite str_app_nil_l. rewrite prev_after_nil in Hk.
    destruct suf as [|d suf]; [done|]. simpl.
    destruct (p d); [|done]. by destruct (star_loop p k (Some d) suf cs).
  - simpl in Hws. apply andb_true_iff in Hws as [Hc Hws].
    rewrite str_app_cons. simpl. rewrite Hc.
    rewrite prev_after_cons in Hk. destruct (IH Hws _ Hk) as [m ->]. by eexists.
Qed.

Lemma star_loop_accepts (p : ascii -> bool) (k : cont) (prev : option ascii)
    (s : string) (cs : captures) :
  (forall prev' s' cs', is_Some (k prev' s' cs')) ->
  is_Some (star_loop p k prev s cs).
Proof.
  intros Hk. rewrite <- (str_app_nil_l s). by apply star_loop_complete.
Qed.

(** Completeness of the label pattern at one position. *)
Lemma label_pattern_complete (prev : option ascii) (s : string) :
  label_at s -> is_Some (rmatch true label_pattern accept prev s []).
Proof.
  intros (lab & ws & ch & rest & -> & Hlab & Hws & H1 & H2).
  rewrite label_pattern_eq. cbn [rmatch].
  set (s := lab +:+ ":" +:+ ws +:+ String ch rest).
  set (K := fun (prev' : option ascii) (s' : string) (cs' : captures) =>
              rmatch true label_tail accept prev' s' ((1%nat, consumed s s') :: cs')).
  assert (forall prev' cs', is_Some (rmatch true label_tail accept prev'
                                       (":" +:+ ws +:+ String ch rest) cs')) as Htail.
  { intros prev' cs'. unfold label_tail.
    rewrite (str_app_cons ":" ""), str_app_nil_l. cbn [rmatch].
    change (chr_eq true ":" ":") with true. cbv iota.
    apply star_loop_complete.
    - by rewrite (all_chars_ext _ _ _ space_set_matches).
    - cbn [rmatch].
      assert (cset_matches true stop_set ch = true) as -> by (by apply stop_set_matches).
      apply star_loop_accepts. intros. by eexists. }
  assert (forall lit, lower lab = lower lit ->
            is_Some (rmatch true (escape lit) K prev s [])) as Hlit.
  { intros lit Hl. destruct (Htail (prev_after prev lab) [(1%nat, lab)]) as [m Hm].
    exists m. apply rmatch_escape. exists lab, (":" +:+ ws +:+ String ch rest).
    split; [done|]. split; [by apply lit_match_lower|].
    unfold K, s. by rewrite consumed_app. }
  destruct (rmatch true (escape "Recommendation") K prev s []) as [m|] eqn:H;
    [by eexists|].
  destruct Hlab as [Hl | Hl].
  - destruct (Hlit "Recommendation" Hl) as [m Hm]. congruence.
  - by apply Hlit.
Qed.

Lemma any_char_weaken (p q : ascii -> bool) (s : string) :
  (forall c, q c = true -> p c = true) ->
  any_char p s = false -> any_char q s = false.
Proof.
  intros Hqp. induction s as [|c s IH]; [done|]. cbn [any_char].
  intros H. apply orb_false_iff in H as [Hc Hs]. rewrite (IH Hs), orb_false_r.
  destruct (q c) eqn:Hq; [|done]. by rewrite (Hqp c Hq) in Hc.
Qed.

(** X5: when the text holds a recognizable label, the label branch is
    taken.  The result is the stripped capture of the leftmost label: the
    text splits into a prefix in which no recognizable label starts, the
    label, a colon, whitespace, a non-empty captured run without period or
    newline, and the rest; the result holds no period at all. *)
Theorem clean_recommendation_label_branch (text : string) :
  has_label text ->
  exists pre lab ws g rest,
    text = pre +:+ lab +:+ ":" +:+ ws +:+ g +:+ rest
    /\ (lower lab = "recommendation" \/ lower lab = "exam")
    /\ all_chars isspace ws = true
    /\ g <> ""
    /\ any_char stops g = false
    /\ (forall p q, pre = p +:+ q -> q <> "" ->
          ~ label_at (q +:+ lab +:+ ":" +:+ ws +:+ g +:+ rest))
    /\ clean_recommendation text = Ok (strip g)
    /\ any_char (Ascii.eqb ".") (strip g) = false.
Proof.
  intros (pre0 & s0 & E0 & Hs0).
  assert (is_Some (search true label_pattern text)) as [m Hs].
  { unfold search. apply search_from_some. exists pre0, s0. split; [done|].
    by apply label_pattern_complete. }
  unfold clean_recommendation. rewrite Hs.
  apply search_from_result in Hs as (pre & suf & -> & Hm & Hno).
  apply label_pattern_result in Hm
    as (lab & ws & g & rest & -> & Hlab & Hws & Hg0 & Hg & ->).
  rewrite stop_set_run in Hg. apply negb_true_iff in Hg.
  exists pre, lab, ws, g, rest. cbn [group Nat.eqb].
  repeat (split; [done|]). split; [|split; [done|]].
  - intros p q E Hq Hl.
    destruct (label_pattern_complete (prev_after None p) _ Hl) as [m Hm].
    by rewrite (Hno p q E Hq) in Hm.
  - destruct (strip_spec g) as (l & r & E & _).
    rewrite E, !any_char_app in Hg.
    apply orb_false_iff in Hg as [_ Hg]. apply orb_false_iff in Hg as [Hg _].
    revert Hg. apply any_char_weaken. intros c Hc. unfold stops.
    by rewrite Ascii.eqb_sym, Hc.
Qed.

Lemma clean_recommendation_label_branch_witness :
  exists pre lab ws g rest,
    "See note. Exam: MRI brain. Recommendation: none"
      = pre +:+ lab +:+ ":" +:+ ws +:+ g +:+ rest
    /\ (lower lab = "recommendation" \/ lower lab = "exam")
    /\ all_chars isspace ws = true
    /\ g <> ""
    /\ any_char stops g = false
    /\ (forall p q, pre = p +:+ q -> q <> "" ->
          ~ label_at (q +:+ lab +:+ ":" +:+ ws +:+ g +:+ rest))
    /\ clean_recommendation "See note. Exam: MRI brain. Recommendation: none"
       = Ok (strip g)
    /\ any_char (Ascii.eqb ".") (strip g) = false.
Proof.
  apply (clean_recommendation_label_branch
           "See note. Exam: MRI brain. Recommendation: none").
  exists "See note. ", "Exam: MRI brain. Recommendation: none".
  split; [reflexivity|].
  exists "Exam", " ", "M"%char, "RI brain. Recommendation: none".
  split; [reflexivity|]. split; [by right|]. split; [reflexivity|].
  split; discriminate.
Defined.

End ExtractorLabel.

(* ===================================================================== *)
(** ** Cleaning a column, [apply_cleaning_to_dataframe] *)
(* ===================================================================== *)

Section FrameCleaning.
Import Py.
Import Re.
Import Spec.
Import PyType.
Import MedicalDataProcessor.

(** The second group always takes part in a match, so [match.group(2)] is
    a string. *)
Lemma clean_recommendation_returns (text : string) :
  exists r, clean_recommendation text = Ok r.
Proof.
  unfold clean_recommendation.
  destruct (search true label_pattern text) as [m|] eqn:Hs; [|by eexists].
  apply search_from_result in Hs as (pre & suf & _ & Hm & _).
  apply label_pattern_result in Hm as (lab & ws & g & rest & _ & _ & _ & _ & _ & ->).
  by eexists.
Qed.

Lemma apply_cells_returns (column : Pd.Series) :
  Forall (fun v => is_str v = true) column ->
  exists cleaned,
    PyType.apply clean_recommendation_cell column = Returns cleaned
    /\ length cleaned = length column
    /\ forall i s, column !! i = Some (VStr s) ->
         exists r, clean_recommendation s = Ok r /\ cleaned !! i = Some (VStr r).
Proof.
  induction 1 as [|v column Hv _ (cleaned & Happ & Hlen & Hcells)].
  - exists []. repeat split. intros i s Hi. by destruct i.
  - destruct v as [|s|z]; try done.
    destruct (clean_recommendation_returns s) as [r Hr].
    exists (VStr r :: cleaned). cbn [PyType.apply clean_recommendation_cell].
    rewrite Hr, Happ. split; [done|]. split; [by simpl; rewrite Hlen|].
    intros [|i] s' Hi.
    + injection Hi as <-. by exists r.
    + by apply Hcells.
Qed.

Lemma apply_cells_raises (strs : Pd.Series) (v : value) (rest : Pd.Series) :
  Forall (fun v => is_str v = true) strs -> is_str v = false ->
  PyType.apply clean_recommendation_cell (strs ++ v :: rest) = Raises (TypeError v).
Proof.
  intros Hstrs Hv. induction Hstrs as [|w strs Hw _ IH].
  - by destruct v.
  - destruct w as [|s|z]; try done.
    destruct (clean_recommendation_returns s) as [r Hr].
    cbn [app PyType.apply clean_recommendation_cell]. by rewrite Hr, IH.
Qed.

(** X6: [apply_cleaning_to_dataframe] raises [KeyError] when the column is
    absent; on a column whose cells are all strings it returns one cleaned
    string per row, in row order; and it raises [TypeError] at the first
    cell that is not a string (null or a number), since [re.search] is
    called on the cell as it is.  Both classes agree. *)
Theorem apply_cleaning_to_dataframe_outcome (df : Pd.DataFrame) (column_name : string) :
  (df !! column_name = None ->
   apply_cleaning_to_dataframe df column_name = Raises (Exn (KeyError column_name)))
  /\ (forall column,
        df !! column_name = Some column ->
        Forall (fun v => is_str v = true) column ->
        exists cleaned,
          apply_cleaning_to_dataframe df column_name = Returns cleaned
          /\ length cleaned = length column
          /\ forall i s, column !! i = Some (VStr s) ->
               exists r, clean_recommendation s = Ok r
                 /\ cleaned !! i = Some (VStr r))
  /\ (forall strs v rest,
        df !! column_name = Some (strs ++ v :: rest) ->
        Forall (fun v => is_str v = true) strs -> is_str v = false ->
        apply_cleaning_to_dataframe df column_name = Raises (TypeError v))
  /\ DataCleaner.apply_cleaning_to_dataframe df column_name
     = apply_cleaning_to_dataframe df column_name.
Proof.
  unfold apply_cleaning_to_dataframe. repeat split.
  - by intros ->.
  - intros column -> Hstr. by apply apply_cells_returns.
  - intros strs v rest -> Hstrs Hv. by apply apply_cells_raises.
Qed.

End FrameCleaning.

(* ===================================================================== *)
(** ** More on the taxonomy encoders *)
(* ===================================================================== *)

Section EncoderInvariants.
Import Py.
Import Re.
Import Spec.
Import MedicalDataProcessor.
Import Notions.
Local Open Scope Z_scope.

Lemma lor_below (n a b : Z) :
  0 <= a < 2 ^ n -> 0 <= b < 2 ^ n -> 0 <= Z.lor a b < 2 ^ n.
Proof.
  intros Ha Hb.
  assert (0 <= Z.lor a b) as H0 by (apply Z.lor_nonneg; lia).
  split; [done|].
  destruct (Z.eq_dec (Z.lor a b) 0) as [->|Hne]; [lia|].
  assert (0 < n) as Hn.
  { destruct (Z_lt_le_dec 0 n) as [|Hle]; [done|]. exfalso. apply Hne.
    assert (2 ^ n <= 1) by
      (destruct (Z.eq_dec n 0) as [->|]; [simpl; lia|rewrite Z.pow_neg_r; lia]).
    assert (a = 0) as -> by lia. assert (b = 0) as -> by lia. done. }
  apply Z.log2_lt_pow2; [lia|].
  rewrite Z.log2_lor by lia.
  apply Z.max_lub_lt.
  - destruct (Z.eq_dec a 0) as [->|]; [done|]. apply Z.log2_lt_pow2; lia.
  - destruct (Z.eq_dec b 0) as [->|]; [done|]. apply Z.log2_lt_pow2; lia.
Qed.

Lemma or_flags_range (n : Z) (hit : list string -> bool)
    (rows : list (list string * Z)) (flag : Z) :
  Forall (fun row => 0 <= snd row < 2 ^ n) rows ->
  0 <= flag < 2 ^ n ->
  0 <= or_flags hit rows flag < 2 ^ n.
Proof.
  intros Hrows. revert flag.
  induction Hrows as [|row rows Hrow _ IH]; intros flag Hflag; [done|].
  rewrite or_flags_cons. apply IH. destruct (hit (fst row)); [|done].
  by apply lor_below.
Qed.

Lemma rows_below (n : Z) (rows : list (list string * Z)) :
  forallb (fun row => (0 <=? snd row) && (snd row <? 2 ^ n)) rows = true ->
  Forall (fun row => 0 <= snd row < 2 ^ n) rows.
Proof.
  intros H. apply Forall_forall. intros row Hin.
  rewrite forallb_forall in H. specialize (H row).
  apply list_elem_of_In in Hin. specialize (H Hin).
  apply andb_true_iff in H as [H1 H2]. lia.
Qed.

(** X7: under the configured tables neither encoder raises.  A null cell
    gives null; any other cell gives an integer, between 0 and 2^10 - 1 for
    the organ encoder and between 0 and 2^8 - 1 for the exam encoder. *)
Theorem encoder_flag_range (phrase : value) :
  (isna phrase = true ->
   tokenize_and_flag_organs init phrase = Ok VNone
   /\ map_exam_to_binary_flag init phrase = Ok VNone)
  /\ (isna phrase = false ->
      exists organ_bits exam_bits,
        tokenize_and_flag_organs init phrase = Ok (VInt organ_bits)
        /\ map_exam_to_binary_flag init phrase = Ok (VInt exam_bits)
        /\ 0 <= organ_bits < 2 ^ 10
        /\ 0 <= exam_bits < 2 ^ 8).
Proof.
  split.
  - intros Hna. unfold tokenize_and_flag_organs, map_exam_to_binary_flag.
    by rewrite Hna.
  - intros Hna. eexists _, _.
    split; [by apply tokenize_and_flag_organs_ok|].
    split; [by apply map_exam_to_binary_flag_ok|].
    split; (apply or_flags_range; [|lia]); apply rows_below; by vm_compute.
Qed.

End EncoderInvariants.

Section EncoderCleaning.
Import Py.
Import Re.
Import Spec.
Import MedicalDataProcessor.
Import Notions.

Lemma lower_char_idem (c : ascii) : lower_char (lower_char c) = lower_char c.
Proof. by destruct c as [[] [] [] [] [] [] [] []]. Qed.

Lemma lower_char_hyphen (c : ascii) :
  Ascii.eqb (lower_char c) "-" = Ascii.eqb c "-".
Proof. by destruct c as [[] [] [] [] [] [] [] []]. Qed.

Lemma lower_char_class (c : ascii) :
  is_word (lower_char c) || isspace (lower_char c) = is_word c || isspace c.
Proof. by destruct c as [[] [] [] [] [] [] [] []]. Qed.

Lemma lower_idem (s : string) : lower (lower s) = lower s.
Proof.
  induction s as [|c s IH]; [done|]. cbn [lower]. by rewrite lower_char_idem, IH.
Qed.

Lemma replace_hyphen_lower (s : string) :
  replace "-" " " (lower s) = lower (replace "-" " " s).
Proof.
  induction s as [|c s IH]; [done|]. cbn [lower replace].
  rewrite lower_char_hyphen. destruct (Ascii.eqb c "-").
  - rewrite !(str_app_cons " " ""), !str_app_nil_l. cbn [lower]. by rewrite IH.
  - cbn [lower]. by rewrite IH.
Qed.

Lemma replace_hyphen_idem (s : string) :
  replace "-" " " (replace "-" " " s) = replace "-" " " s.
Proof.
  induction s as [|c s IH]; [done|]. cbn [replace].
  destruct (Ascii.eqb c "-") eqn:Hc.
  - rewrite !(str_app_cons " " ""), !str_app_nil_l. cbn [replace].
    change (Ascii.eqb " " "-") with false. cbv iota. by rewrite IH.
  - cbn [replace]. by rewrite Hc, IH.
Qed.

Lemma clean_text_lower (s : string) :
  clean_text (VStr (lower s)) = clean_text (VStr s).
Proof.
  rewrite !clean_text_keep. cbn [str].
  by rewrite replace_hyphen_lower, lower_idem.
Qed.

Lemma clean_text_hyphen (s : string) :
  clean_text (VStr (replace "-" " " s)) = clean_text (VStr s).
Proof. rewrite !clean_text_keep. cbn [str]. by rewrite replace_hyphen_idem. Qed.

Lemma clean_text_kept (s : string) :
  clean_text (VStr (keep_chars kept s)) = clean_text (VStr s).
Proof.
  rewrite !clean_text_keep. cbn [str].
  induction s as [|c s IH]; [done|]. cbn [keep_chars replace].
  unfold kept at 1. destruct (Ascii.eqb c "-") eqn:Hc.
  - rewrite orb_true_r. cbn [replace]. rewrite Hc.
    rewrite !(str_app_cons " " ""), !str_app_nil_l. cbn [lower keep_chars].
    change (is_word (lower_char " ") || isspace (lower_char " ")) with true.
    cbv iota. by rewrite IH.
  - rewrite orb_false_r. cbn [lower keep_chars]. rewrite lower_char_class.
    destruct (is_word c || isspace c) eqn:Hk.
    + cbn [replace]. rewrite Hc. cbn [lower keep_chars].
      by rewrite lower_char_class, Hk, IH.
    + done.
Qed.

Lemma encoders_same_text (self : t) (s s' : string) :
  clean_text (VStr s') = clean_text (VStr s) ->
  tokenize_and_flag_organs self (VStr s') = tokenize_and_flag_organs self (VStr s)
  /\ map_exam_to_binary_flag self (VStr s') = map_exam_to_binary_flag self (VStr s).
Proof.
  intros H. unfold tokenize_and_flag_organs, map_exam_to_binary_flag.
  cbn [isna]. by rewrite H.
Qed.

(** X8: whatever the tables, the two encoders return the same for a text,
    for its lower-cased form, for the text with hyphens replaced by spaces,
    and for the text without the characters that are neither word
    characters, whitespace nor hyphens: letter case and punctuation never
    change a flag, nor whether the call raises. *)
Theorem encoder_ignores_case_and_punctuation (self : t) (s : string) :
  let same (s' : string) :=
    tokenize_and_flag_organs self (VStr s') = tokenize_and_flag_organs self (VStr s)
    /\ map_exam_to_binary_flag self (VStr s') = map_exam_to_binary_flag self (VStr s) in
  same (lower s) /\ same (replace "-" " " s) /\ same (keep_chars kept s).
Proof.
  repeat split; apply encoders_same_text;
    first [apply clean_text_lower | apply clean_text_hyphen | apply clean_text_kept].
Qed.

(* ------------------------------------------------------------------ *)

Lemma sub_set_app (st : cset) (repl a b : string) :
  sub_set st repl (a +:+ b) = sub_set st repl a +:+ sub_set st repl b.
Proof.
  induction a as [|c a IH]; [done|]. rewrite str_app_cons. cbn [sub_set].
  rewrite IH. destruct (cset_matches false st c); [|by rewrite str_app_cons].
  by rewrite str_app_assoc.
Qed.

Lemma clean_text_app (a b : string) :
  clean_text (VStr (a +:+ b)) = clean_text (VStr a) +:+ clean_text (VStr b).
Proof. unfold clean_text. cbn [str]. by rewrite sub_set_app, lower_app, sub_set_app. Qed.

Lemma clean_text_spaced (a b : string) :
  clean_text (VStr (a +:+ " " +:+ b))
  = clean_text (VStr a) +:+ " " +:+ clean_text (VStr b).
Proof. by rewrite !clean_text_app. Qed.

Lemma word_after_spaced (s t : string) :
  word_after (s +:+ " " +:+ t) = word_after s.
Proof. by destruct s. Qed.

Lemma word_before_spaced (s p : string) :
  word_before (prev_after None (s +:+ " " +:+ p)) = word_before (prev_after None p).
Proof.
  rewrite <- str_app_assoc, prev_after_app.
  assert (prev_after None (s +:+ " ") = Some " "%char) as ->.
  { by rewrite prev_after_app. }
  unfold prev_after. by destruct (last_char p).
Qed.

(** A whole-word match survives adding more text after a space, or before
    one. *)
Lemma search_word_pattern_spaced (term s t : string) :
  is_Some (search false (word_pattern term) s)
  \/ is_Some (search false (word_pattern term) t) ->
  is_Some (search false (word_pattern term) (s +:+ " " +:+ t)).
Proof.
  unfold search. rewrite !search_from_some.
  intros [(pre & suf0 & -> & Hm) | (pre & suf0 & -> & Hm)];
    apply word_pattern_at in Hm as [Hb (suf & -> & He)].
  - exists pre, (term +:+ suf +:+ " " +:+ t).
    split; [by rewrite !str_app_assoc|].
    apply word_pattern_at. split.
    + rewrite <- (str_app_assoc term suf), word_after_spaced. exact Hb.
    + exists (suf +:+ " " +:+ t). split; [done|].
      by rewrite word_after_spaced.
  - exists (s +:+ " " +:+ pre), (term +:+ suf).
    split; [by rewrite !str_app_assoc|].
    rewrite <- prev_after_app in He.
    apply word_pattern_at. split.
    + by rewrite word_before_spaced.
    + exists suf. split; [done|].
      rewrite <- (prev_after_app None (s +:+ " " +:+ pre) term).
      rewrite (str_app_assoc s), (str_app_assoc " " pre term).
      by rewrite word_before_spaced.
Qed.

Lemma any_term_spaced (terms : list string) (s t : string) :
  any_term terms s || any_term terms t = true ->
  any_term terms (s +:+ " " +:+ t) = true.
Proof.
  intros H. apply any_term_true.
  apply orb_true_iff in H as [H | H]; apply any_term_true in H as (term & Hin & Hs);
    exists term; (split; [done|]); apply search_word_pattern_spaced; auto.
Qed.

Lemma or_flags_spaced (rows : list (list string * Z)) (s t : string) (k : Z) :
  Z.testbit (or_flags (fun terms => any_term terms s) rows 0) k
  || Z.testbit (or_flags (fun terms => any_term terms t) rows 0) k = true ->
  Z.testbit (or_flags (fun terms => any_term terms (s +:+ " " +:+ t)) rows 0) k = true.
Proof.
  rewrite !or_flags_testbit, Z.testbit_0_l. cbn [orb].
  rewrite orb_true_iff, !existsb_exists.
  intros [(row & Hin & H) | (row & Hin & H)]; exists row; (split; [done|]);
    apply andb_true_iff in H as [Hhit Hbit]; rewrite Hbit, andb_true_r;
    apply any_term_spaced; rewrite Hhit; by rewrite ?orb_true_r.
Qed.

(** X9: under the configured tables, a bit that either encoder sets for a
    text [a] or for a text [b] is also set for the two joined by one space:
    putting two descriptions side by side never loses a category. *)
Theorem encoder_flags_monotone (a b : string) :
  (exists za zb zab,
     tokenize_and_flag_organs init (VStr a) = Ok (VInt za)
     /\ tokenize_and_flag_organs init (VStr b) = Ok (VInt zb)
     /\ tokenize_and_flag_organs init (VStr (a +:+ " " +:+ b)) = Ok (VInt zab)
     /\ forall k, Z.testbit za k || Z.testbit zb k = true -> Z.testbit zab k = true)
  /\ (exists za zb zab,
        map_exam_to_binary_flag init (VStr a) = Ok (VInt za)
        /\ map_exam_to_binary_flag init (VStr b) = Ok (VInt zb)
        /\ map_exam_to_binary_flag init (VStr (a +:+ " " +:+ b)) = Ok (VInt zab)
        /\ forall k, Z.testbit za k || Z.testbit zb k = true -> Z.testbit zab k = true).
Proof.
  split; eexists _, _, _.
  - rewrite !tokenize_and_flag_organs_ok by done. repeat split.
    intros k. rewrite clean_text_spaced. apply or_flags_spaced.
  - rewrite !map_exam_to_binary_flag_ok by done. repeat split.
    intros k. rewrite clean_text_spaced. apply or_flags_spaced.
Qed.

End EncoderCleaning.

Section EncoderTables.
Import Py.
Import Re.
Import Spec.
Import MedicalDataProcessor.
Import Notions.
Local Open Scope Z_scope.

Lemma exam_loop_agree (self self' : t) (cleaned : string) (items : dict Z) (flag : Z) :
  (forall category f, (category, f) ∈ items ->
     dict_get (exam_categories self') category = dict_get (exam_categories self) category) ->
  exam_loop self' cleaned items flag = exam_loop self cleaned items flag.
Proof.
  revert flag. induction items as [|[category f] items IH]; intros flag Hsame;
    [reflexivity|].
  cbn [exam_loop]. unfold dict_item.
  rewrite (Hsame category f) by apply list_elem_of_here.
  destruct (dict_get (exam_categories self) category) as [terms|]; [|reflexivity].
  cbn [bind].
  destruct (any_term terms cleaned); apply IH; intros c f' Hin;
    apply (Hsame c f'); by apply list_elem_of_further.
Qed.

Lemma exam_loop_find (self : t) (cleaned : string) (items : dict Z) (flag : Z) :
  Forall (fun entry => 0 <= snd entry < 2 ^ 8) items -> 0 <= flag < 2 ^ 8 ->
  match List.find (category_missing self) items with
  | Some (category, _) => exam_loop self cleaned items flag = Raise (KeyError category)
  | None => exists z, exam_loop self cleaned items flag = Ok z /\ 0 <= z < 2 ^ 8
  end.
Proof.
  intros Hitems. revert flag.
  induction Hitems as [|[category f] items Hf _ IH]; intros flag Hflag.
  - by exists flag.
  - cbn [List.find exam_loop]. unfold category_missing at 1, dict_item. cbn [fst].
    destruct (dict_get (exam_categories self) category) as [terms|] eqn:Hget.
    + rewrite bool_decide_eq_true_2 by (by eexists). cbn [negb bind].
      destruct (any_term terms cleaned); apply IH; [|done].
      by apply lor_below.
    + rewrite bool_decide_eq_false_2 by (by intros [? ?]). reflexivity.
Qed.

(** X10: the exam encoder reads the exam table only at the eight
    categories of its flag dict.  Two tables that agree on those eight give
    the same result, so further categories in the table have no effect.  On
    a non-null cell, a table that lacks one of the eight makes the call
    raise [KeyError] for the first lacking category in the order of the flag
    dict, whatever the text; a table that has all eight makes it return an
    integer below 2^8. *)
Theorem map_exam_to_binary_flag_categories (self : t) (exam_name : value) :
  isna exam_name = false ->
  (forall self' : t,
     (forall category f, (category, f) ∈ categories_to_flags ->
        dict_get (exam_categories self') category
        = dict_get (exam_categories self) category) ->
     map_exam_to_binary_flag self' exam_name = map_exam_to_binary_flag self exam_name)
  /\ match List.find (category_missing self) categories_to_flags with
     | Some (category, _) =>
         map_exam_to_binary_flag self exam_name = Raise (KeyError category)
     | None =>
         exists z, map_exam_to_binary_flag self exam_name = Ok (VInt z)
           /\ 0 <= z < 2 ^ 8
     end.
Proof.
  intros Hna. unfold map_exam_to_binary_flag. rewrite Hna. split.
  - intros self' Hsame. by rewrite (exam_loop_agree self self').
  - assert (Forall (fun entry : string * Z => 0 <= snd entry < 2 ^ 8)
              categories_to_flags) as Hflags
      by (repeat (constructor; [by vm_compute|]); constructor).
    pose proof (exam_loop_find self (clean_text exam_name) categories_to_flags 0
                  Hflags ltac:(lia)) as H.
    destruct (List.find (category_missing self) categories_to_flags)
      as [[category f]|].
    + by rewrite H.
    + destruct H as (z & -> & Hz). by exists z.
Qed.

Lemma map_exam_to_binary_flag_categories_witness :
  map_exam_to_binary_flag
    {| keywords := keywords init; ct_types := ct_types init;
       exam_categories :=
         List.filter (fun entry => negb (String.eqb (fst entry) "MRI"))
           (exam_categories init);
       organ_clusters := organ_clusters init;
       contrast_standardization_map := contrast_standardization_map init |}
    (VStr "ct scan")
  = Raise (KeyError "MRI").
Proof.
  exact (proj2 (map_exam_to_binary_flag_categories
                  {| keywords := keywords init; ct_types := ct_types init;
                     exam_categories :=
                       List.filter (fun entry => negb (String.eqb (fst entry) "MRI"))
                         (exam_categories init);
                     organ_clusters := organ_clusters init;
                     contrast_standardization_map :=
                       contrast_standardization_map init |}
                  (VStr "ct scan") eq_refl)).
Defined.

Lemma organ_loop_find (cleaned : string) (items : dict (list string)) (flag : Z) :
  0 <= flag < 2 ^ 10 ->
  match List.find (cluster_unflagged cleaned) items with
  | Some (cluster, _) => organ_loop cleaned items flag = Raise (KeyError cluster)
  | None => exists z, organ_loop cleaned items flag = Ok z /\ 0 <= z < 2 ^ 10
  end.
Proof.
  revert flag. induction items as [|[cluster terms] items IH]; intros flag Hflag.
  - by exists flag.
  - cbn [List.find organ_loop]. unfold cluster_unflagged at 1, dict_item.
    cbn [fst snd].
    destruct (any_term terms cleaned); cbn [andb]; [|by apply IH].
    destruct (dict_get cluster_tokens cluster) as [token|] eqn:Hget.
    + rewrite bool_decide_eq_true_2 by (by eexists). cbn [negb bind].
      apply IH. apply lor_below; [done|].
      cbn [cluster_tokens dict_get] in Hget.
      repeat (destruct (String.eqb cluster _);
              [injection Hget as <-; by vm_compute|]).
      discriminate Hget.
    + rewrite bool_decide_eq_false_2 by (by intros [? ?]). reflexivity.
Qed.

(** X11: the organ encoder looks up the token of a cluster only once a
    term of that cluster matches.  On a non-null cell it raises [KeyError]
    for the first cluster of the organ table, in table order, that has a
    matching term and no token; when there is no such cluster it returns an
    integer below 2^10, so a cluster without token is ignored as long as
    none of its terms occurs. *)
Theorem tokenize_and_flag_organs_clusters (self : t) (phrase : value) :
  isna phrase = false ->
  match List.find (cluster_unflagged (clean_text phrase)) (organ_clusters self) with
  | Some (cluster, _) =>
      tokenize_and_flag_organs self phrase = Raise (KeyError cluster)
  | None =>
      exists z, tokenize_and_flag_organs self phrase = Ok (VInt z)
        /\ 0 <= z < 2 ^ 10
  end.
Proof.
  intros Hna. unfold tokenize_and_flag_organs. rewrite Hna.
  pose proof (organ_loop_find (clean_text phrase) (organ_clusters self) 0
                ltac:(lia)) as H.
  destruct (List.find _ (organ_clusters self)) as [[cluster terms]|].
  - by rewrite H.
  - destruct H as (z & -> & Hz). by exists z.
Qed.

Lemma tokenize_and_flag_organs_clusters_witness :
  tokenize_and_flag_organs
    {| keywords := keywords init; ct_types := ct_types init;
       exam_categories := exam_categories init;
       organ_clusters := organ_clusters init ++ [("teeth", ["tooth"; "teeth"])];
       contrast_standardization_map := contrast_standardization_map init |}
    (VStr "Tooth, upper")
  = Raise (KeyError "teeth").
Proof.
  exact (tokenize_and_flag_organs_clusters
           {| keywords := keywords init; ct_types := ct_types init;
              exam_categories := exam_categories init;
              organ_clusters :=
                organ_clusters init ++ [("teeth", ["tooth"; "teeth"])];
              contrast_standardization_map := contrast_standardization_map init |}
           (VStr "Tooth, upper") eq_refl).
Defined.

End EncoderTables.

(* ===================================================================== *)
(** ** More on the contrast standardizer and the orchestrator *)
(* ===================================================================== *)

Section ContrastCells.
Import Py.
Import Spec.
Import MedicalDataProcessor.

Lemma contrast_cell_flag (v : value) :
  Pd.map_dict VInt contrast_flags (standardize_contrast init [v])
  = [contrast_code (standardize_cell init v)].
Proof. by rewrite standardize_contrast_cells, contrast_flags_cells. Qed.

(** X12: standardizing a contrast cell and then encoding it yields the code
    [n] exactly when the cell is a canonical phrase with code [n], written
    as it is, with one leading space or with one trailing space.  Every
    other cell is encoded as null. *)
Theorem contrast_flag_of_cell (v : value) (n : Z) :
  Pd.map_dict VInt contrast_flags (standardize_contrast init [v]) = [VInt n]
  <-> exists p, dict_get contrast_flags p = Some n
        /\ (v = VStr p \/ v = VStr (" " +:+ p) \/ v = VStr (p +:+ " ")).
Proof.
  rewrite contrast_cell_flag. split.
  - destruct v as [|k|z]; try discriminate.
    unfold standardize_cell.
    cbn [contrast_standardization_map init dict_get].
    destruct (String.eqb_spec k "with iv contrast ") as [->|_].
    { intros [= <-]. exists "with iv contrast". split; [done|]. by right; right. }
    destruct (String.eqb_spec k "without iv contrast ") as [->|_].
    { intros [= <-]. exists "without iv contrast". split; [done|]. by right; right. }
    destruct (String.eqb_spec k " with iv contrast") as [->|_].
    { intros [= <-]. exists "with iv contrast". split; [done|]. by right; left. }
    destruct (String.eqb_spec k " with or without iv contrast") as [->|_].
    { intros [= <-]. exists "with or without iv contrast". split; [done|].
      by right; left. }
    destruct (String.eqb_spec k " without iv contrast") as [->|_].
    { intros [= <-]. exists "without iv contrast". split; [done|]. by right; left. }
    destruct (String.eqb_spec k "with or without iv contrast ") as [->|_].
    { intros [= <-]. exists "with or without iv contrast". split; [done|].
      by right; right. }
    unfold contrast_code.
    destruct (String.eqb_spec k "with iv contrast") as [->|_].
    { intros [= <-]. exists "with iv contrast". split; [done|]. by left. }
    destruct (String.eqb_spec k "without iv contrast") as [->|_].
    { intros [= <-]. exists "without iv contrast". split; [done|]. by left. }
    destruct (String.eqb_spec k "with or without iv contrast") as [->|_].
    { intros [= <-]. exists "with or without iv contrast". split; [done|]. by left. }
    discriminate.
  - intros (p & Hp & Hv). cbn [contrast_flags dict_get] in Hp.
    destruct (String.eqb_spec p "with iv contrast") as [E|_].
    { injection Hp as <-. rewrite E in Hv. by destruct Hv as [-> | [-> | ->]]. }
    destruct (String.eqb_spec p "without iv contrast") as [E|_].
    { injection Hp as <-. rewrite E in Hv. by destruct Hv as [-> | [-> | ->]]. }
    destruct (String.eqb_spec p "with or without iv contrast") as [E|_].
    { injection Hp as <-. rewrite E in Hv. by destruct Hv as [-> | [-> | ->]]. }
    discriminate Hp.
Qed.

End ContrastCells.

Section OrchestratorFrame.
Import Py.
Import Spec.
Import MedicalDataProcessor.

Variables (e o c : string).
Variable (df : Pd.DataFrame).

Lemma process_data_ok_iff :
  (process_data init e o c df).2 = Ok tt
  <-> is_Some (df !! e)
      /\ (is_Some (df !! o) \/ o = e +:+ "_flags")
      /\ (is_Some (df !! c) \/ c = e +:+ "_flags" \/ c = o +:+ "_flags").
Proof.
  rewrite process_data_pipeline. unfold pipeline.
  destruct (df !! e) as [exam|] eqn:He; cbn [snd].
  2:{ split; [done|]. by intros [[? ?] _]. }
  destruct (<[_ := _]> df !! o) as [organ|] eqn:Ho;
    [apply lookup_insert_Some in Ho | apply lookup_insert_None in Ho].
  - destruct (<[_ := _]> (<[_ := _]> df) !! c) as [contrast|] eqn:Hc;
      [apply lookup_insert_Some in Hc | apply lookup_insert_None in Hc]; cbn [snd].
    + split; [|done]. intros _. split; [by eexists|]. split.
      * destruct Ho as [[? _]|[_ ?]]; [by right | left; by eexists].
      * destruct Hc as [[? _]|[_ Hc]]; [by right; right|].
        apply lookup_insert_Some in Hc as [[? _]|[_ ?]];
          [by right; left | left; by eexists].
    + split; [done|]. destruct Hc as [Hc Hne].
      apply lookup_insert_None in Hc as [Hc Hne'].
      intros (_ & _ & [[? ?] | [? | ?]]); congruence.
  - cbn [snd]. split; [done|]. destruct Ho as [Ho Hne].
    intros (_ & [[? ?] | ?] & _); congruence.
Qed.

Lemma process_data_raises :
  (process_data init e o c df).2 = Ok tt
  \/ exists k, k ∈ [e; o; c]
       /\ (process_data init e o c df).2 = Raise (KeyError k)
       /\ df !! k = None.
Proof.
  rewrite process_data_pipeline. unfold pipeline.
  destruct (df !! e) as [exam|] eqn:He; cbn [snd].
  2:{ right. exists e. split; [apply list_elem_of_here|done]. }
  destruct (<[_ := _]> df !! o) as [organ|] eqn:Ho.
  2:{ right. exists o. apply lookup_insert_None in Ho as [Ho _].
      split; [|done]. apply list_elem_of_further, list_elem_of_here. }
  destruct (<[_ := _]> (<[_ := _]> df) !! c) as [contrast|] eqn:Hc; [by left|].
  right. exists c. apply lookup_insert_None in Hc as [Hc _].
  apply lookup_insert_None in Hc as [Hc _]. split; [|done].
  do 2 apply list_elem_of_further. apply list_elem_of_here.
Qed.

Lemma missing_columns_nil (required : list string) :
  List.filter (fun col => negb (Pd.has_column df col)) required = []
  <-> Forall (fun col => is_Some (df !! col)) required.
Proof.
  induction required as [|col required IH]; cbn [List.filter].
  - split; [constructor|done].
  - unfold Pd.has_column at 1. case_bool_decide as Hcol; cbn [negb].
    + rewrite IH. split; [by constructor|]. by inversion 1.
    + split; [done|]. by inversion 1.
Qed.

Lemma check_columns_ok_iff (required : list string) :
  DataCleaner.check_columns df required = Ok true
  <-> Forall (fun col => is_Some (df !! col)) required.
Proof.
  rewrite <- missing_columns_nil. unfold DataCleaner.check_columns.
  by destruct (List.filter _ required).
Qed.

(** X13: [process_data] under the configured tables returns exactly when
    the exam field is in the frame, the organ field is in the frame or is
    the exam flag field (written before it is read), and the contrast field
    is in the frame or is the exam or organ flag field.  Otherwise it raises
    [KeyError] for one of the three fields, one that is not in the frame;
    it raises nothing else. *)
Theorem process_data_succeeds_iff :
  ((process_data init e o c df).2 = Ok tt
   <-> is_Some (df !! e)
       /\ (is_Some (df !! o) \/ o = e +:+ "_flags")
       /\ (is_Some (df !! c) \/ c = e +:+ "_flags" \/ c = o +:+ "_flags"))
  /\ ((process_data init e o c df).2 = Ok tt
      \/ exists k, k ∈ [e; o; c]
           /\ (process_data init e o c df).2 = Raise (KeyError k)
           /\ df !! k = None).
Proof. split; [apply process_data_ok_iff | apply process_data_raises]. Qed.

(** X14: calling [check_columns] with the three fields first is a
    sufficient guard: when it returns, [process_data] does not raise.  When
    no source field is named like the flag field of an earlier one, it is
    also necessary: [process_data] returns only on frames that pass the
    check. *)
Theorem check_columns_guards_process_data :
  (DataCleaner.check_columns df [e; o; c] = Ok true ->
   (process_data init e o c df).2 = Ok tt)
  /\ (o <> e +:+ "_flags" -> c <> e +:+ "_flags" -> c <> o +:+ "_flags" ->
      (process_data init e o c df).2 = Ok tt ->
      DataCleaner.check_columns df [e; o; c] = Ok true).
Proof.
  split.
  - intros H. apply check_columns_ok_iff in H.
    inversion H as [|? ? He H']; subst. inversion H' as [|? ? Ho H'']; subst.
    inversion H'' as [|? ? Hc _]; subst.
    apply process_data_ok_iff. auto.
  - intros Ho Hc Hc' H. apply process_data_ok_iff in H as (He & Ho' & Hc'').
    apply check_columns_ok_iff.
    repeat constructor; [done| |]; intuition congruence.
Qed.

(** X15: whether it returns or raises, [process_data] leaves every column
    other than the three flag fields and the contrast field as it was, and
    it removes no column. *)
Theorem process_data_frame :
  (forall k,
     k ∉ [e +:+ "_flags"; o +:+ "_flags"; c; c +:+ "_flags"] ->
     (process_data init e o c df).1 !! k = df !! k)
  /\ (forall k,
        is_Some (df !! k) -> is_Some ((process_data init e o c df).1 !! k)).
Proof.
  rewrite process_data_pipeline. unfold pipeline. split.
  - intros k Hk. rewrite !not_elem_of_cons in Hk.
    destruct Hk as (Hef & Hof & Hc & Hcf & _).
    destruct (df !! e) as [exam|]; [|done].
    destruct (<[_ := _]> df !! o) as [organ|];
      [|cbn [fst]; by rewrite lookup_insert_ne].
    destruct (<[_ := _]> (<[_ := _]> df) !! c) as [contrast|]; cbn [fst];
      by rewrite !lookup_insert_ne.
  - intros k Hk.
    destruct (df !! e) as [exam|]; [|done].
    destruct (<[_ := _]> df !! o) as [organ|]; cbn [fst].
    2:{ rewrite lookup_insert_is_Some'. by right. }
    destruct (<[_ := _]> (<[_ := _]> df) !! c) as [contrast|]; cbn [fst];
      rewrite !lookup_insert_is_Some'; auto.
Qed.

(** X16: [process_data] keeps the number of rows: when every column of the
    frame has [n] cells, so has every column of the frame it leaves,
    whether it returns or raises. *)
Theorem process_data_row_count (n : nat) :
  map_Forall (fun _ col => length col = n) df ->
  map_Forall (fun _ col => length col = n) (process_data init e o c df).1.
Proof.
  intros Hdf. rewrite process_data_pipeline. unfold pipeline.
  destruct (df !! e) as [exam|] eqn:He; [|done].
  assert (map_Forall (fun _ col => length col = n)
            (<[e +:+ "_flags" := List.map exam_flag exam]> df)) as H1.
  { apply map_Forall_insert_2; [|done].
    rewrite length_map. exact (map_Forall_lookup_1 _ _ _ _ Hdf He). }
  destruct (<[_ := _]> df !! o) as [organ|] eqn:Ho; [|done].
  assert (map_Forall (fun _ col => length col = n)
            (<[o +:+ "_flags" := List.map organ_flag organ]>
               (<[e +:+ "_flags" := List.map exam_flag exam]> df))) as H2.
  { apply map_Forall_insert_2; [|done].
    rewrite length_map. exact (map_Forall_lookup_1 _ _ _ _ H1 Ho). }
  destruct (<[_ := _]> (<[_ := _]> df) !! c) as [contrast|] eqn:Hc; [|done].
  cbn [fst]. pose proof (map_Forall_lookup_1 _ _ _ _ H2 Hc) as Hlen.
  cbn beta in Hlen.
  apply map_Forall_insert_2; [by rewrite !length_map|].
  apply map_Forall_insert_2; [by rewrite length_map|done].
Qed.

Lemma lookup_map {A B} (f : A -> B) (l : list A) (i : nat) :
  List.map f l !! i = f <$> l !! i.
Proof.
  revert i. induction l as [|a l IH]; intros [|i]; try reflexivity. apply IH.
Qed.

(** X17: with three distinct source fields, none of them named like the
    flag field of a field read before it, and all three in the frame,
    [process_data] returns, and the frame then holds: in the exam flag
    field the exam encoder applied to each cell of the exam field, in the
    organ flag field the organ encoder applied to each cell of the organ
    field, in the contrast field its standardized cells, and in the contrast
    flag field the codes of the standardized cells. *)
Theorem process_data_result (exam organ contrast : Pd.Series) :
  e <> o -> e <> c -> o <> c ->
  o <> e +:+ "_flags" -> c <> e +:+ "_flags" -> c <> o +:+ "_flags" ->
  df !! e = Some exam -> df !! o = Some organ -> df !! c = Some contrast ->
  exists exam_flags organ_flags,
    Pd.apply (map_exam_to_binary_flag init) exam = Ok exam_flags
    /\ Pd.apply (tokenize_and_flag_organs init) organ = Ok organ_flags
    /\ (forall i v, exam !! i = Some v ->
          exists r, map_exam_to_binary_flag init v = Ok r /\ exam_flags !! i = Some r)
    /\ (forall i v, organ !! i = Some v ->
          exists r, tokenize_and_flag_organs init v = Ok r /\ organ_flags !! i = Some r)
    /\ (process_data init e o c df).2 = Ok tt
    /\ (process_data init e o c df).1 !! (e +:+ "_flags") = Some exam_flags
    /\ (process_data init e o c df).1 !! (o +:+ "_flags") = Some organ_flags
    /\ (process_data init e o c df).1 !! c = Some (standardize_contrast init contrast)
    /\ (process_data init e o c df).1 !! (c +:+ "_flags")
       = Some (Pd.map_dict VInt contrast_flags (standardize_contrast init contrast)).
Proof.
  intros Heo Hec Hoc Hoef Hcef Hcof He Ho Hc. unfold Pd.Series in *.
  exists (List.map exam_flag exam), (List.map organ_flag organ).
  split; [apply mapM_total, map_exam_to_binary_flag_total|].
  split; [apply mapM_total, tokenize_and_flag_organs_total|].
  split.
  { intros i v Hi. exists (exam_flag v).
    split; [apply map_exam_to_binary_flag_total|].
    by rewrite (lookup_map exam_flag exam i), Hi. }
  split.
  { intros i v Hi. exists (organ_flag v).
    split; [apply tokenize_and_flag_organs_total|].
    by rewrite (lookup_map organ_flag organ i), Hi. }
  rewrite process_data_pipeline. unfold pipeline. rewrite He.
  rewrite (lookup_insert_ne df (e +:+ "_flags") o) by done. rewrite Ho.
  rewrite !(lookup_insert_ne _ _ c) by done. rewrite Hc. cbn [fst snd].
  rewrite standardize_contrast_cells, contrast_flags_cells.
  assert (e +:+ "_flags" <> o +:+ "_flags") by (by rewrite flag_field_inj).
  assert (e +:+ "_flags" <> c +:+ "_flags") by (by rewrite flag_field_inj).
  assert (o +:+ "_flags" <> c +:+ "_flags") by (by rewrite flag_field_inj).
  pose proof (flag_field_fresh c).
  split; [done|].
  repeat split;
    repeat first [ rewrite lookup_insert_eq | rewrite lookup_insert_ne by congruence ];
    done.
Qed.

End OrchestratorFrame.

Section OrchestratorExamples.
Import Py.
Import Spec.
Import MedicalDataProcessor.

Lemma process_data_row_count_witness :
  map_Forall (fun _ col => length col = 2)
    (process_data init "exam" "organ" "contrast"
       (<["exam" := [VStr "CT scan"; VNone] ]>
          (<["organ" := [VStr "kidney stone"; VStr "Head"] ]>
             (<["contrast" := [VStr " with iv contrast"; VStr "none"] ]> ∅)))).1.
Proof.
  apply (process_data_row_count "exam" "organ" "contrast").
  repeat (apply map_Forall_insert_2; [reflexivity|]).
  apply map_Forall_empty.
Defined.

Lemma process_data_result_witness :
  let df : Pd.DataFrame :=
    <["exam" := [VStr "CT scan"; VNone] ]>
      (<["organ" := [VStr "kidney stone"; VStr "Head"] ]>
         (<["contrast" := [VStr " with iv contrast"; VStr "none"] ]> ∅)) in
  exists exam_flags organ_flags,
    Pd.apply (map_exam_to_binary_flag init) [VStr "CT scan"; VNone] = Ok exam_flags
    /\ Pd.apply (tokenize_and_flag_organs init) [VStr "kidney stone"; VStr "Head"]
       = Ok organ_flags
    /\ (forall i v, [VStr "CT scan"; VNone] !! i = Some v ->
          exists r, map_exam_to_binary_flag init v = Ok r /\ exam_flags !! i = Some r)
    /\ (forall i v, [VStr "kidney stone"; VStr "Head"] !! i = Some v ->
          exists r, tokenize_and_flag_organs init v = Ok r /\ organ_flags !! i = Some r)
    /\ (process_data init "exam" "organ" "contrast" df).2 = Ok tt
    /\ (process_data init "exam" "organ" "contrast" df).1 !! "exam_flags"
       = Some exam_flags
    /\ (process_data init "exam" "organ" "contrast" df).1 !! "organ_flags"
       = Some organ_flags
    /\ (process_data init "exam" "organ" "contrast" df).1 !! "contrast"
       = Some (standardize_contrast init [VStr " with iv contrast"; VStr "none"])
    /\ (process_data init "exam" "organ" "contrast" df).1 !! "contrast_flags"
       = Some (Pd.map_dict VInt contrast_flags
                 (standardize_contrast init [VStr " with iv contrast"; VStr "none"])).
Proof.
  intros df.
  apply (process_data_result "exam" "organ" "contrast" df); try discriminate;
    reflexivity.
Defined.

End OrchestratorExamples.

Section StandardizerCells.
Import Py.
Import Spec.
Import MedicalDataProcessor.



End StandardizerCells.
